(** * GPP4323: the command/response engine of gpp4323.py

    A shallow embedding of [gpp4323.py]: the line codec ([_sendline],
    [_expect]), the completion polling of [GPP4323.wait], the constructor,
    the operations of [Channel] and [Measurement.update].

    Conventions of the embedding.
    - The connection is a pair of queues: [rx] holds the lines the
      instrument will answer with (one element is what one [readline] call
      returns, terminator included), [tx] the lines written so far.  A
      [readline] on an empty queue returns the empty line, as a socket at end
      of file or a serial port after its timeout does.
    - Python exceptions are the constructors of [exn]; a method is a
      function [world -> result A * world], so that what was written before a
      failure stays written.
    - Text is [string].  A character above 127 makes [encode('ascii')] fail,
      as in Python; [decode('utf-8')] is modelled on ASCII lines only and
      rejects the others (for bytes that are not UTF-8 this is what Python
      does, for multi-byte characters it is a restriction of the model).
    - The lock is reentrant and the model has one thread: acquiring it is
      not an event.  [dprint] appends to [console], without its time stamp.
    - Left out: the channel cache, [__del__], [Channel.meas], the printing
      of a [Measurement] and the command-line front end [CliApp]. *)

From Stdlib Require Import ZArith QArith String Ascii List Bool DecimalString Lia.
Import ListNotations.
Close Scope Q_scope.
Open Scope string_scope.

(** ** Python values that reach the wire *)

(** The arguments of the channel operations are formatted into commands by
    f-strings and otherwise only compared with [None] and [True].  A float is
    carried by the text [str()] gives for it, which determines it. *)
Inductive value : Type :=
| VNone
| VBool (b : bool)
| VInt (z : Z)
| VFloat (repr : string)
| VStr (s : string).

Definition str_int (z : Z) : string := NilZero.string_of_int (Z.to_int z).

Definition str (v : value) : string :=
  match v with
  | VNone => "None"
  | VBool true => "True"
  | VBool false => "False"
  | VInt z => str_int z
  | VFloat r => r
  | VStr s => s
  end.

Definition is_None (v : value) : bool :=
  match v with VNone => true | _ => false end.

(** [v == True]: [True] is the integer 1, so [1 == True] and [1.0 == True]. *)
Definition eq_True (v : value) : bool :=
  match v with
  | VBool b => b
  | VInt z => (z =? 1)%Z
  | VFloat r => String.eqb r "1.0"
  | VNone | VStr _ => false
  end.

(** ** Exceptions *)

Inductive exn : Type :=
| AttributeError
| TypeError
| IndexError
| ValueError (msg : string)
| RuntimeError (msg : string)
| UnicodeEncodeError
| UnicodeDecodeError
| OSError
| UnboundLocalError
| GPPException (msg : message)
with message : Type :=
| Text (s : string)
| Repr (e : exn).

(** ** Characters and text *)

Definition LF : ascii := "010"%char.
Definition nl : string := String LF "".

Definition code (c : ascii) : N := N_of_ascii c.

Definition is_ascii_char (c : ascii) : bool := (code c <? 128)%N.

Fixpoint is_ascii (s : string) : bool :=
  match s with
  | "" => true
  | String c s' => is_ascii_char c && is_ascii s'
  end.

(** [\d] and [str.isdigit] on ASCII text. *)
Definition isdigit (c : ascii) : bool := ((48 <=? code c) && (code c <=? 57))%N.

(** [\s] and [str.isspace] on ASCII text: TAB, LF, VT, FF, CR, the four
    separators 0x1c..0x1f, and the space. *)
Definition isspace (c : ascii) : bool :=
  (((9 <=? code c) && (code c <=? 13)) || ((28 <=? code c) && (code c <=? 32)))%N.

Definition digit_val (c : ascii) : Z := (Z.of_N (code c) - 48)%Z.

Fixpoint digits_val (acc : Z) (s : string) : Z :=
  match s with
  | "" => acc
  | String c s' => digits_val (10 * acc + digit_val c)%Z s'
  end.

Fixpoint all_chars (p : ascii -> bool) (s : string) : bool :=
  match s with
  | "" => true
  | String c s' => p c && all_chars p s'
  end.

Definition rev_string (s : string) : string :=
  string_of_list_ascii (rev (list_ascii_of_string s)).

Fixpoint lstrip (s : string) : string :=
  match s with
  | String c s' => if isspace c then lstrip s' else s
  | "" => ""
  end.

(** [str.strip()] *)
Definition strip (s : string) : string :=
  rev_string (lstrip (rev_string (lstrip s))).

(** [s.split(sep)] for a one-character separator: never an empty list. *)
Fixpoint split_aux (sep : ascii) (cur : string) (s : string) : list string :=
  match s with
  | "" => [cur]
  | String c s' =>
      if Ascii.eqb c sep then cur :: split_aux sep "" s'
      else split_aux sep (cur ++ String c "") s'
  end.

Definition split (sep : ascii) (s : string) : list string := split_aux sep "" s.

(** ** The result monad *)

Inductive result (A : Type) : Type :=
| Ok (a : A)
| Raise (e : exn).
Arguments Ok {A} a.
Arguments Raise {A} e.

(** What the debug trace and the notes of [wait] print. *)
Inductive trace : Type :=
| DebugTx (l : string)
| DebugRx (raw : string)
| Connecting (host : option (string * Z)) (sport : option (string * value))
| Connected (mfr model sn fw : string)
| PowerCycleNote (sn : string)
| QueryErrorNote (sn : string).

(** One reading of [Measurement.data]; [mode] is absent until the mode
    query of the channel has been answered. *)
Record reading : Type := mkReading {
  voltage : Q;
  current : Q;
  power : Q;
  channel_no : Z;
  mode : option string
}.

Record world : Type := mkWorld {
  online : bool;            (* opening the socket or the port succeeds *)
  rx : list string;         (* lines still to be read *)
  tx : list string;         (* lines written, oldest first *)
  console : list trace;     (* what dprint printed, oldest first *)
  data : option (list (Z * reading))
                            (* the data attribute of the Measurement *)
}.

Definition M (A : Type) : Type := world -> result A * world.

Definition ret {A} (a : A) : M A := fun w => (Ok a, w).
Definition raise {A} (e : exn) : M A := fun w => (Raise e, w).
Definition bind {A B} (c : M A) (k : A -> M B) : M B :=
  fun w => match c w with
           | (Ok a, w') => k a w'
           | (Raise e, w') => (Raise e, w')
           end.

Notation "x <- c1 ;; c2" := (bind c1 (fun x => c2))
  (at level 61, c1 at next level, right associativity).
Notation "c1 ;; c2" := (bind c1 (fun _ => c2))
  (at level 61, right associativity).

(** [try: c  except Exception as e: h e] *)
Definition try_except {A} (c : M A) (h : exn -> M A) : M A :=
  fun w => match c w with
           | (Ok a, w') => (Ok a, w')
           | (Raise e, w') => h e w'
           end.

Definition when (b : bool) (c : M unit) : M unit := if b then c else ret tt.

Definition dprint (t : trace) : M unit :=
  fun w => (Ok tt, mkWorld (online w) (rx w) (tx w) (console w ++ [t]) (data w)).

Definition write (bytes : string) : M unit :=
  fun w => (Ok tt, mkWorld (online w) (rx w) (tx w ++ [bytes]) (console w) (data w)).

Definition readline : M string :=
  fun w => match rx w with
           | [] => (Ok "", w)
           | l :: rest =>
               (Ok l, mkWorld (online w) rest (tx w) (console w) (data w))
           end.

(** A computation that fails or not without touching the connection. *)
Definition lift {A} (r : result A) : M A := fun w => (r, w).

Definition encode_ascii (l : string) : result string :=
  if is_ascii l then Ok l else Raise UnicodeEncodeError.

Definition decode_utf8 (s : string) : result string :=
  if is_ascii s then Ok s else Raise UnicodeDecodeError.

(** ** Regular expressions

    The five patterns of the source are sequences of literal characters and
    of capture groups holding one greedy repetition of a character class.
    [search] is [re.search]: the leftmost start, each repetition as long as
    the rest of the pattern allows.  A match is the list of its groups. *)

Inductive quant : Type := Star | Plus.

Inductive item : Type :=
| Lit (c : ascii)
| Group (q : quant) (cls : ascii -> bool).

Definition pattern : Type := list item.

Section Repeat.
Context {R : Type} (cls : ascii -> bool) (k : string -> string -> option R).

(** The longest run of [cls] first, then shorter ones, until [k] accepts
    the run and what follows it. *)
Fixpoint rep (acc : string) (s : string) : option R :=
  match s with
  | String c s' =>
      if cls c then
        match rep (acc ++ String c "") s' with
        | Some r => Some r
        | None => k acc s
        end
      else k acc s
  | "" => k acc s
  end.
End Repeat.

Definition admits (q : quant) (g : string) : bool :=
  match q, g with
  | Plus, "" => false
  | _, _ => true
  end.

Fixpoint match_here (p : pattern) (s : string) : option (list string) :=
  match p with
  | [] => Some []
  | Lit c :: p' =>
      match s with
      | String c' s' => if Ascii.eqb c c' then match_here p' s' else None
      | "" => None
      end
  | Group q cls :: p' =>
      rep cls (fun g rest =>
                 if admits q g then option_map (cons g) (match_here p' rest)
                 else None) "" s
  end.

Fixpoint search (p : pattern) (s : string) : option (list string) :=
  match match_here p s with
  | Some m => Some m
  | None =>
      match s with
      | String _ s' => search p s'
      | "" => None
      end
  end.

Definition not_comma (c : ascii) : bool := negb (Ascii.eqb c ",").

(** [(\S+)] *)
Definition pat_token : pattern := [Group Plus (fun c => negb (isspace c))].
(** [([\d\.]+)] *)
Definition pat_number : pattern :=
  [Group Plus (fun c => isdigit c || Ascii.eqb c ".")].
(** [(\d+)] *)
Definition pat_digits : pattern := [Group Plus isdigit].
(** [([0-9.,;]+)] *)
Definition pat_meas : pattern :=
  [Group Plus (fun c => isdigit c || Ascii.eqb c "." || Ascii.eqb c ","
                        || Ascii.eqb c ";")].
(** The identity pattern: four groups of any characters but the comma,
    separated by commas, the third one after the letters SN and a colon. *)
Definition pat_idn : pattern :=
  [Group Star not_comma; Lit ","; Group Star not_comma; Lit ",";
   Lit "S"; Lit "N"; Lit ":"; Group Star not_comma; Lit ",";
   Group Star not_comma].

(** [m.group(i)] and [m[i]] for [i >= 1]; on [None] the first is an
    AttributeError and the second a TypeError. *)
Definition group (m : option (list string)) (i : nat) : result string :=
  match m with
  | None => Raise AttributeError
  | Some gs =>
      match nth_error gs (i - 1) with
      | Some g => Ok g
      | None => Raise IndexError
      end
  end.

Definition getitem (m : option (list string)) (i : nat) : result string :=
  match m with
  | None => Raise TypeError
  | Some gs =>
      match nth_error gs (i - 1) with
      | Some g => Ok g
      | None => Raise IndexError
      end
  end.

(** [int(s)] on a run of ASCII digits, which is all [(\d+)] captures from
    ASCII text; CPython refuses more than 4300 digits. *)
Definition py_int (s : string) : result Z :=
  if negb (all_chars isdigit s) || (String.length s =? 0)%nat
     || (4300 <? String.length s)%nat
  then Raise (ValueError "invalid literal for int()")
  else Ok (digits_val 0 s).

Fixpoint pow10 (k : nat) : positive :=
  match k with
  | O => 1
  | S k' => 10 * pow10 k'
  end.

(** [float(s)] on text over the digits and the point, which is all a field
    of [([0-9.,;]+)] can hold: digits with at most one point and at least one
    digit.  The reading is kept as the decimal number it denotes; the
    rounding to binary64 is not modelled. *)
Definition py_float (s : string) : result Q :=
  match split "." s with
  | [ip] =>
      if all_chars isdigit ip && negb (String.length ip =? 0)%nat
      then Ok (Qmake (digits_val 0 ip) 1)
      else Raise (ValueError "could not convert string to float")
  | [ip; fp] =>
      if all_chars isdigit ip && all_chars isdigit fp
         && negb (String.length (ip ++ fp) =? 0)%nat
      then Ok (Qmake (digits_val 0 (ip ++ fp)) (pow10 (String.length fp)))
      else Raise (ValueError "could not convert string to float")
  | _ => Raise (ValueError "could not convert string to float")
  end.

(** ** The engine: class GPP4323 *)

Record GPP4323 : Type := mkGPP {
  debug : bool;
  manufacturer : string;
  model : string;
  serial : string;
  version : string
}.

Definition _sendline (self : GPP4323) (l : string) : M unit :=
  when (debug self) (dprint (DebugTx l)) ;;
  b <- lift (encode_ascii (l ++ nl)) ;;
  write b.

Definition _expect (self : GPP4323) (p : pattern) : M (option (list string)) :=
  s <- readline ;;
  when (debug self) (dprint (DebugRx s)) ;;
  s <- lift (decode_utf8 s) ;;
  ret (search p s).

(** [val & mask] as a condition. *)
Definition bit (val mask : Z) : bool := negb (Z.land val mask =? 0)%Z.

(** The body of [while tries > 0]; the value is [tries] when the loop is
    left, by [break] or by the count reaching 0. *)
Fixpoint wait_loop (self : GPP4323) (tries : nat) : M nat :=
  match tries with
  | O => ret O
  | S tries' =>
      _sendline self "*ESR?" ;;
      m <- _expect self pat_digits ;;
      g <- lift (group m 1) ;;
      val <- lift (py_int g) ;;
      when (bit val 128) (dprint (PowerCycleNote (serial self))) ;;
      if bit val 32 then raise (RuntimeError "command syntax error from supply")
      else if bit val 16 then raise (RuntimeError "execution error from supply")
      else if bit val 8 then raise (RuntimeError "device error from supply")
      else
        when (bit val 4) (dprint (QueryErrorNote (serial self))) ;;
        if bit val 1 then ret tries
        else wait_loop self tries'
  end.

Definition wait (self : GPP4323) : M unit :=
  _sendline self "*OPC" ;;
  tries <- wait_loop self 5 ;;
  if (tries =? 0)%nat then raise (RuntimeError "supply never became ready")
  else ret tt.

Definition alloff (self : GPP4323) : M unit := _sendline self "ALLOUTOFF".

(** [socket.connect] and [serial.Serial]: an OSError when the peer or the
    port is not there. *)
Definition open_link : M unit :=
  fun w => if online w then (Ok tt, w) else (Raise OSError, w).

Definition need_link : string :=
  "You need to instantiate with host or serial port info; a tuple of host,port or serial_port,speed".

(** [GPP4323.__init__(host, sport, debug)]: [host] is [None] or a pair,
    [sport] is [None] or a pair either part of which may be [None]. *)
Definition GPP4323_init (host : option (string * Z))
    (sport : option (option string * option value)) (dbg : bool)
  : M GPP4323 :=
  let self := mkGPP dbg "" "" "" "" in
  match host, sport with
  | Some h, _ => dprint (Connecting (Some h) None) ;; open_link
  | None, Some (Some port, Some speed) =>
      dprint (Connecting None (Some (port, speed))) ;; open_link
  | None, _ => raise (GPPException (Text need_link))
  end ;;
  self <- try_except
    (_sendline self "*IDN?" ;;
     rv <- _expect self pat_idn ;;
     mfr <- lift (group rv 1) ;;
     mdl <- lift (group rv 2) ;;
     sn <- lift (group rv 3) ;;
     fw <- lift (group rv 4) ;;
     let self := mkGPP dbg mfr mdl sn (strip fw) in
     _sendline self "*CLS" ;;
     _sendline self ":SYST:CLE" ;;
     _sendline self ":STAT:QUE:ENAB (-440:+900)" ;;
     ret self)
    (fun e => raise (GPPException (Repr e))) ;;
  dprint (Connected (manufacturer self) (model self) (serial self)
                    (version self)) ;;
  ret self.

(** ** class Monitor *)

Module Monitor.
Definition ABOVE (n : value) : string * value := (">", n).
Definition BELOW (n : value) : string * value := ("<", n).
Definition EQUAL (n : value) : string * value := ("=", n).
Definition NONE : option (string * value) := None.
Definition TRIG_NONE : Z := 0.
Definition TRIG_OUTOFF : Z := 1.
Definition TRIG_ALARM : Z := 2.
Definition TRIG_BEEPER : Z := 4.
End Monitor.

(** ** class Channel *)

Record Channel : Type := mkChannel {
  gpp : GPP4323;
  n : Z
}.

Definition on_off (b : bool) : string := if b then "ON" else "OFF".

Definition disable (self : Channel) : M unit :=
  _sendline (gpp self) (":OUTP" ++ str_int (n self) ++ ":STAT OFF") ;;
  wait (gpp self).

Definition enable (self : Channel) : M unit :=
  _sendline (gpp self) (":OUTP" ++ str_int (n self) ++ ":STAT ON") ;;
  wait (gpp self).

Definition set_source (self : Channel) (voltage current : value) : M unit :=
  let one_or_two := ((n self =? 1) || (n self =? 2))%Z in
  _sendline (gpp self) "TRACK0" ;;
  when one_or_two
    (_sendline (gpp self) (":LOAD" ++ str_int (n self) ++ ":CC OFF")) ;;
  _sendline (gpp self) (":SOUR" ++ str_int (n self) ++ ":CURR " ++ str current) ;;
  _sendline (gpp self) (":SOUR" ++ str_int (n self) ++ ":VOLT " ++ str voltage) ;;
  wait (gpp self) ;;
  when one_or_two
    (_sendline (gpp self) (":MODE" ++ str_int (n self) ++ "?") ;;
     rv <- _expect (gpp self) pat_token ;;
     g <- lift (group rv 1) ;;
     if negb (String.eqb g "IND")
     then raise (RuntimeError "supply failed to switch to source mode")
     else ret tt).

Definition set_load (self : Channel) (cv cc cr : value) : M unit :=
  let some v := negb (is_None v) in
  if (is_None cv && is_None cc && is_None cr)
     || (some cv && some cc) || (some cv && some cr) || (some cc && some cr)
  then raise (ValueError
                ("supply can track only one of CV / CC / CR mode at a time "
                 ++ str cc ++ " " ++ str cv ++ " " ++ str cr))
  else
    mode <- (if some cv then
               _sendline (gpp self) (":SOUR" ++ str_int (n self) ++ ":VOLT " ++ str cv) ;;
               _sendline (gpp self) (":LOAD" ++ str_int (n self) ++ ":CV on") ;;
               ret (Some "CV")
             else if some cc then
               _sendline (gpp self) (":SOUR" ++ str_int (n self) ++ ":CURR " ++ str cc) ;;
               _sendline (gpp self) (":LOAD" ++ str_int (n self) ++ ":CC on") ;;
               ret (Some "CC")
             else if some cr then
               _sendline (gpp self) (":LOAD" ++ str_int (n self) ++ ":RES " ++ str cr) ;;
               _sendline (gpp self) (":LOAD" ++ str_int (n self) ++ ":CR on") ;;
               ret (Some "CR")
             else ret None) ;;
    wait (gpp self) ;;
    _sendline (gpp self) (":MODE" ++ str_int (n self) ++ "?") ;;
    rv <- _expect (gpp self) pat_token ;;
    g <- lift (group rv 1) ;;
    match mode with
    | None => raise UnboundLocalError
    | Some mode =>
        if negb (String.eqb g mode)
        then raise (RuntimeError ("supply failed to switch to " ++ mode ++ " mode"))
        else ret tt
    end.

Definition is_load (self : Channel) : M bool :=
  _sendline (gpp self) (":MODE" ++ str_int (n self) ++ "?") ;;
  rv <- _expect (gpp self) pat_token ;;
  g <- lift (group rv 1) ;;
  ret (String.eqb g "CV" || String.eqb g "CC" || String.eqb g "CR").

Definition truthy {A} (o : option A) : bool :=
  match o with Some _ => true | None => false end.

(** The prefix of every monitor command of the channel. *)
Definition moni (self : Channel) : string := ":MONI" ++ str_int (n self).

(** [monitor(current, voltage, power, trigger)]: a condition is
    [Monitor.NONE] or a pair made by [Monitor.ABOVE] and its siblings. *)
Definition monitor (self : Channel)
    (current voltage power : option (string * value)) (trigger : Z) : M unit :=
  _sendline (gpp self) (moni self ++ ":STAT OFF") ;;
  match current with
  | Some c =>
      _sendline (gpp self) (moni self ++ ":CURR:COND " ++ fst c ++ "C,AND") ;;
      _sendline (gpp self) (moni self ++ ":CURR:VAL " ++ str (snd c))
  | None => ret tt
  end ;;
  match voltage with
  | Some c =>
      _sendline (gpp self) (moni self ++ ":VOLT:COND " ++ fst c ++ "V,AND") ;;
      _sendline (gpp self) (moni self ++ ":VOLT:VAL " ++ str (snd c))
  | None => ret tt
  end ;;
  match power with
  | Some c =>
      _sendline (gpp self) (moni self ++ ":POWER:COND " ++ fst c ++ "P") ;;
      _sendline (gpp self) (moni self ++ ":POWER:VAL " ++ str (snd c))
  | None => ret tt
  end ;;
  when (negb (truthy current))
    (_sendline (gpp self) (moni self ++ ":CURR:COND NONE,NONE")) ;;
  when (negb (truthy voltage))
    (_sendline (gpp self) (moni self ++ ":VOLT:COND NONE,NONE")) ;;
  when (negb (truthy power))
    (_sendline (gpp self) (moni self ++ ":POWER:COND NONE")) ;;
  _sendline (gpp self) (moni self ++ ":STOP BEEPER,ON") ;;
  _sendline (gpp self)
    (moni self ++ ":STOP OUTOFF," ++ on_off (bit trigger Monitor.TRIG_OUTOFF)) ;;
  _sendline (gpp self)
    (moni self ++ ":STOP ALARM," ++ on_off (bit trigger Monitor.TRIG_ALARM)) ;;
  _sendline (gpp self)
    (moni self ++ ":STOP BEEPER," ++ on_off (bit trigger Monitor.TRIG_BEEPER)) ;;
  wait (gpp self) ;;
  when (negb (trigger =? 0)%Z
        && (truthy current || truthy voltage || truthy power))
    (_sendline (gpp self) (moni self ++ ":STAT ON")) ;;
  wait (gpp self) ;;
  _sendline (gpp self) ":DISP:TYPE 1".

(** The object [sequence] reads its attributes from: [groups] is a list of
    triples, [cycles] is [True] for an endless sequence or a count. *)
Record Sequence : Type := mkSequence {
  groups : list (value * value * value);
  start : value;
  cycles : value;
  end_ : value
}.

(** [for n, grp in enumerate(seq.groups)], counting from [i]. *)
Fixpoint sequence_groups (self : Channel) (i : Z)
    (gs : list (value * value * value)) : M unit :=
  match gs with
  | [] => ret tt
  | (g0, g1, g2) :: gs' =>
      _sendline (gpp self)
        (":SEQU" ++ str_int (n self) ++ ":PARA " ++ str_int i ++ ","
         ++ str g0 ++ "," ++ str g1 ++ "," ++ str g2) ;;
      sequence_groups self (i + 1)%Z gs'
  end.

Definition sequence (self : Channel) (seq : Sequence) (active : bool) : M unit :=
  let sequ := ":SEQU" ++ str_int (n self) in
  _sendline (gpp self) (sequ ++ ":STAT OFF") ;;
  _sendline (gpp self)
    (sequ ++ ":GROUP " ++ str_int (Z.of_nat (List.length (groups seq)))) ;;
  sequence_groups self 0%Z (groups seq) ;;
  _sendline (gpp self) (sequ ++ ":STAR " ++ str (start seq)) ;;
  (if eq_True (cycles seq)
   then _sendline (gpp self) (sequ ++ ":CYCLE I")
   else _sendline (gpp self) (sequ ++ ":CYCLE N," ++ str (cycles seq))) ;;
  _sendline (gpp self) (sequ ++ ":ENDS " ++ str (end_ seq)) ;;
  wait (gpp self) ;;
  when active
    (_sendline (gpp self) (sequ ++ ":STAT ON") ;;
     wait (gpp self)) ;;
  _sendline (gpp self) ":DISP:TYPE 1".

Definition sequence_enable (self : Channel) (active : bool) : M unit :=
  _sendline (gpp self) (":SEQU" ++ str_int (n self) ++ ":STAT " ++ on_off active).

(** ** class Measurement *)

(** [ch[i]] on a list *)
Definition index (ch : list string) (i : nat) : result string :=
  match nth_error ch i with
  | Some x => Ok x
  | None => Raise IndexError
  end.

(** The dictionary display of [update]: one entry per element of [chs],
    keyed by its position plus one. *)
Fixpoint readings (chn : Z) (chs : list (list string))
  : M (list (Z * reading)) :=
  match chs with
  | [] => ret []
  | ch :: chs' =>
      f0 <- lift (index ch 0) ;;
      v <- lift (py_float f0) ;;
      f1 <- lift (index ch 1) ;;
      i <- lift (py_float f1) ;;
      f2 <- lift (index ch 2) ;;
      p <- lift (py_float f2) ;;
      rest <- readings (chn + 1)%Z chs' ;;
      ret ((chn + 1, mkReading v i p (chn + 1) None)%Z :: rest)
  end.

Definition set_data (d : list (Z * reading)) : M unit :=
  fun w => (Ok tt, mkWorld (online w) (rx w) (tx w) (console w) (Some d)).

Definition put_mode (chn : Z) (m : string) (d : list (Z * reading))
  : list (Z * reading) :=
  map (fun kv => if (fst kv =? chn)%Z
                 then (fst kv,
                       mkReading (voltage (snd kv)) (current (snd kv))
                                 (power (snd kv)) (channel_no (snd kv)) (Some m))
                 else kv) d.

(** [self.data[chn]['mode'] = m] *)
Definition set_mode (chn : Z) (m : string) : M unit :=
  fun w => (Ok tt, mkWorld (online w) (rx w) (tx w) (console w)
                           (option_map (put_mode chn m) (data w))).

(** [for chn in self.data] *)
Fixpoint update_modes (self : GPP4323) (keys : list Z) : M unit :=
  match keys with
  | [] => ret tt
  | chn :: keys' =>
      _sendline self (":MODE" ++ str_int chn ++ "?") ;;
      rv <- _expect self pat_token ;;
      m <- lift (getitem rv 1) ;;
      set_mode chn m ;;
      update_modes self keys'
  end.

Definition update (self : GPP4323) : M unit :=
  _sendline self ":MEAS?" ;;
  rv <- _expect self pat_meas ;;
  g <- lift (group rv 1) ;;
  let chs := map (split ",") (split ";" g) in
  d <- readings 0%Z chs ;;
  set_data d ;;
  update_modes self (map fst d).

(** A connection before anything was exchanged, with the given answers
    queued. *)
Definition fresh (answers : list string) : world :=
  mkWorld true answers [] [] None.

(** The lines written by a run that started in [w] and ended in [w']. *)
Definition written (w w' : world) : list string :=
  skipn (List.length (tx w)) (tx w').

(** ** Notions used in the statements *)

(** After [_sendline l] went through. *)
Definition sent (self : GPP4323) (l : string) (w : world) : world :=
  mkWorld (online w) (rx w) (tx w ++ [l ++ nl])
          (if debug self then console w ++ [DebugTx l] else console w)
          (data w).

(** After [_expect] read its line. *)
Definition received (self : GPP4323) (w : world) : world :=
  mkWorld (online w) (tl (rx w)) (tx w)
          (if debug self then console w ++ [DebugRx (hd "" (rx w))]
           else console w)
          (data w).

(** After a note of [wait] was printed, if it was. *)
Definition noted (b : bool) (t : trace) (w : world) : world :=
  if b then mkWorld (online w) (rx w) (tx w) (console w ++ [t]) (data w)
  else w.

(** Sequencing of computations that do not touch the connection. *)
Definition rbind {A B} (r : result A) (k : A -> result B) : result B :=
  match r with
  | Ok a => k a
  | Raise e => Raise e
  end.

(** What [int(self._expect(r'(\d+)').group(1))] makes of a line. *)
Definition reply_value (line : string) : result Z :=
  rbind (decode_utf8 line) (fun s =>
  rbind (group (search pat_digits s) 1) py_int).

(** What [self._expect(r'(\S+)').group(1)] makes of a line. *)
Definition reply_token (line : string) : result string :=
  rbind (decode_utf8 line) (fun s => group (search pat_token s) 1).

(** A register value on which the loop of [wait] goes round again: none of
    the bits 0x20, 0x10, 0x08 and 0x01. *)
Definition quiet (v : Z) : bool :=
  negb (bit v 32) && negb (bit v 16) && negb (bit v 8) && negb (bit v 1).

(** An answer to the status query that carries such a value. *)
Definition quiet_line (l : string) : Prop :=
  exists v, reply_value l = Ok v /\ quiet v = true.

(** [s.startswith(p)] *)
Fixpoint startswith (p s : string) : bool :=
  match p with
  | "" => true
  | String a p' =>
      match s with
      | "" => false
      | String b s' => Ascii.eqb a b && startswith p' s'
      end
  end.

(** A command as [_sendline] writes it. *)
Definition line (l : string) : string := l ++ nl.

(** The two lines [wait] writes. *)
Definition ESR : string := "*ESR?" ++ nl.
Definition OPC : string := "*OPC" ++ nl.

(** What a run of [wait] comes to: its result, the queries it made after
    the completion request, and the answers it left unread. *)
Definition wait_ends (self : GPP4323) (w : world) (r : result unit)
    (queries : nat) (rest : list string) : Prop :=
  fst (wait self w) = r
  /\ tx (snd (wait self w)) = (tx w ++ OPC :: repeat ESR queries)%list
  /\ rx (snd (wait self w)) = rest.

(** An instrument to run the examples on. *)
Definition bench : GPP4323 :=
  mkGPP false "GW Instek" "GPP-4323" "GEX123456" "V1.17".

(** Five answers with warning bits at most. *)
Definition five_quiet : list string :=
  ["0" ++ nl; "128" ++ nl; "4" ++ nl; "132" ++ nl; "0" ++ nl].

(** The serial pair is there, both parts of it. *)
Definition serial_given (sport : option (option string * option value)) : bool :=
  match sport with
  | Some (Some _, Some _) => true
  | _ => false
  end.

(** The identity line of the instrument of the examples. *)
Definition idn_answer : string := "GW Instek,GPP-4323,SN:GEX123456,V1.17" ++ nl.

(** How many of the three arguments are not [None]. *)
Definition supplied (cv cc cr : value) : nat :=
  List.length (filter (fun v => negb (is_None v)) [cv; cc; cr]).

(** The answers of the measurement example: two channels, then the mode of
    each. *)
Definition meas_answer : string := "1.234,0.500,0.617;5.000,1.000,5.000" ++ nl.

Definition two_channels : list string := [meas_answer; "CV" ++ nl; "IND" ++ nl].

(** A sequence of one group to be run once. *)
Definition run_once : Sequence :=
  mkSequence [(VFloat "5.0", VFloat "1.0", VFloat "2.0")] (VInt 0) (VInt 1)
             (VInt 0).

(** Every line [c] writes satisfies [P], from whatever state it starts. *)
Definition writes {A} (P : string -> Prop) (c : M A) : Prop :=
  forall w, exists extra,
    tx (snd (c w)) = (tx w ++ extra)%list /\ Forall P extra.

(** The texts of a condition can be sent: they are ASCII, as the signs of
    [Monitor] and the text of every number are. *)
Definition encodable (c : option (string * value)) : bool :=
  match c with
  | Some c => is_ascii (fst c) && is_ascii (str (snd c))
  | None => true
  end.

(** What follows the stop settings in [monitor]. *)
Definition after_stops (self : Channel) (l : string) : Prop :=
  l = OPC \/ l = ESR \/ l = line (moni self ++ ":STAT ON")
  \/ l = line ":DISP:TYPE 1".

(** ** Channel.status *)

(** The values of the dictionary [status] returns. *)
Inductive field : Type :=
| FText (s : string)
| FNumber (q : Q)
| FFlag (b : bool).

(** [rv[k] = v] on a dictionary kept in the order of insertion. *)
Fixpoint dict_set (rv : list (string * field)) (k : string) (v : field)
  : list (string * field) :=
  match rv with
  | [] => [(k, v)]
  | (k', v') :: rv' =>
      if String.eqb k' k then (k', v) :: rv' else (k', v') :: dict_set rv' k v
  end.

(** The three conversions of the table: [x[1]], [float(x[1])] and
    [x[1] == 'ON']. *)
Definition as_text (x : option (list string)) : result field :=
  rbind (getitem x 1) (fun t => Ok (FText t)).

Definition as_float (x : option (list string)) : result field :=
  rbind (getitem x 1) (fun t => rbind (py_float t) (fun q => Ok (FNumber q))).

Definition as_flag (x : option (list string)) : result field :=
  rbind (getitem x 1) (fun t => Ok (FFlag (String.eqb t "ON"))).

(** The table of [status]: a query written as what stands before and after
    the channel number, the pattern of its answer, the key and the
    conversion. *)
Definition vars_of_interest
  : list (string * string * pattern * string
          * (option (list string) -> result field)) :=
  [(":MODE", "?", pat_token, "mode", as_text);
   (":SOUR", ":CURR?", pat_number, "current", as_float);
   (":SOUR", ":VOLT?", pat_number, "voltage", as_float);
   (":LOAD", ":CV?", pat_token, "load_cv", as_flag);
   (":LOAD", ":CC?", pat_token, "load_cc", as_flag);
   (":LOAD", ":CR?", pat_token, "load_cr", as_flag);
   (":OUTP", ":STAT?", pat_token, "enabled", as_flag)].

(** [for v in vars_of_interest] *)
Fixpoint status_loop (self : Channel)
    (vars : list (string * string * pattern * string
                  * (option (list string) -> result field)))
    (rv : list (string * field)) : M (list (string * field)) :=
  match vars with
  | [] => ret rv
  | (before, after, p, key, conv) :: vars' =>
      _sendline (gpp self) (before ++ str_int (n self) ++ after) ;;
      x <- _expect (gpp self) p ;;
      v <- lift (conv x) ;;
      status_loop self vars' (dict_set rv key v)
  end.

Definition status (self : Channel) : M (list (string * field)) :=
  status_loop self vars_of_interest [].

(** The text [x[1]] of the answer to a query of [status]. *)
Definition reply_item (p : pattern) (l : string) : result string :=
  rbind (decode_utf8 l) (fun s => getitem (search p s) 1).

(** The seven queries of [status], as written. *)
Definition status_queries (self : Channel) : list string :=
  map (fun v => line (fst (fst (fst (fst v))) ++ str_int (n self)
                      ++ snd (fst (fst (fst v)))))
      vars_of_interest.

(** ** Notions used for the rest of the code *)

(** An identity line: the four fields, with the serial number after SN and
    a colon. *)
Definition idn_line (mfr mdl sn fw : string) : string :=
  mfr ++ "," ++ mdl ++ "," ++ "SN:" ++ sn ++ "," ++ fw.

(** One of the two links is asked for. *)
Definition link_given (host : option (string * Z))
    (sport : option (option string * option value)) : bool :=
  match host with
  | Some _ => true
  | None => serial_given sport
  end.

(** The longest prefix of [s] made of characters of the class. *)
Fixpoint take_while (cls : ascii -> bool) (s : string) : string :=
  match s with
  | String c s' => if cls c then String c (take_while cls s') else ""
  | "" => ""
  end.

(** The first maximal run of characters of the class in [s], if any. *)
Fixpoint first_run (cls : ascii -> bool) (s : string) : option string :=
  match s with
  | String c s' =>
      if cls c then Some (take_while cls s) else first_run cls s'
  | "" => None
  end.

(** Answers on which [wait] returns: fewer than five quiet ones, then one
    with bit 0x01 and none of the fatal bits. *)
Definition completing (polls : list string) (l : string) : Prop :=
  List.length polls < 5
  /\ Forall quiet_line polls
  /\ exists v, reply_value l = Ok v
               /\ bit v 1 = true
               /\ bit v 32 = false /\ bit v 16 = false /\ bit v 8 = false.

(** The load mode [set_load] selects, and the two commands it writes for
    it, when one of the three arguments is given. *)
Definition load_name (cv cc cr : value) : string :=
  if negb (is_None cv) then "CV" else if negb (is_None cc) then "CC" else "CR".

Definition load_commands (self : Channel) (cv cc cr : value) : list string :=
  if negb (is_None cv) then
    [line (":SOUR" ++ str_int (n self) ++ ":VOLT " ++ str cv);
     line (":LOAD" ++ str_int (n self) ++ ":CV on")]
  else if negb (is_None cc) then
    [line (":SOUR" ++ str_int (n self) ++ ":CURR " ++ str cc);
     line (":LOAD" ++ str_int (n self) ++ ":CC on")]
  else
    [line (":LOAD" ++ str_int (n self) ++ ":RES " ++ str cr);
     line (":LOAD" ++ str_int (n self) ++ ":CR on")].

(** The condition under which [monitor] switches the monitoring on. *)
Definition armed (trigger : Z) (current voltage power : option (string * value))
  : bool :=
  negb (trigger =? 0)%Z && (truthy current || truthy voltage || truthy power).

(** What [monitor] may write after the stop settings when it does not switch
    the monitoring on, and what [sequence] may write after the settings of the
    sequence. *)
Definition polling_or_home (l : string) : Prop :=
  l = OPC \/ l = ESR \/ l = line ":DISP:TYPE 1".

(** The parameter commands of [sequence], one per group, numbered from
    [i]. *)
Fixpoint para_commands (self : Channel) (i : Z)
    (gs : list (value * value * value)) : list string :=
  match gs with
  | [] => []
  | (g0, g1, g2) :: gs' =>
      (":SEQU" ++ str_int (n self) ++ ":PARA " ++ str_int i ++ ","
       ++ str g0 ++ "," ++ str g1 ++ "," ++ str g2)
      :: para_commands self (i + 1)%Z gs'
  end.

Definition group_encodable (g : value * value * value) : bool :=
  is_ascii (str (fst (fst g))) && is_ascii (str (snd (fst g)))
  && is_ascii (str (snd g)).

(** The texts of a sequence can be sent. *)
Definition sequence_encodable (seq : Sequence) : bool :=
  forallb group_encodable (groups seq)
  && is_ascii (str (start seq)) && is_ascii (str (cycles seq))
  && is_ascii (str (end_ seq)).

(** The prefix of every sequence command of the channel. *)
Definition sequ (self : Channel) : string := ":SEQU" ++ str_int (n self).

(** The settings [sequence] writes before it waits. *)
Definition sequence_settings (self : Channel) (seq : Sequence) : list string :=
  List.app
    [sequ self ++ ":STAT OFF";
     sequ self ++ ":GROUP " ++ str_int (Z.of_nat (List.length (groups seq)))]
    (List.app
       (para_commands self 0 (groups seq))
       [sequ self ++ ":STAR " ++ str (start seq);
        if eq_True (cycles seq)
        then sequ self ++ ":CYCLE I"
        else sequ self ++ ":CYCLE N," ++ str (cycles seq);
        sequ self ++ ":ENDS " ++ str (end_ seq)]).

(** After a list of commands went through. *)
Definition sent_all (self : GPP4323) (ls : list string) (w : world) : world :=
  fold_left (fun w l => sent self l w) ls w.

(** What [__init__] does once the link is open: the part under [try]
    and the line it prints at the end. *)
Definition bootstrap (dbg : bool) : M GPP4323 :=
  let self := mkGPP dbg "" "" "" "" in
  self <- try_except
    (_sendline self "*IDN?" ;;
     rv <- _expect self pat_idn ;;
     mfr <- lift (group rv 1) ;;
     mdl <- lift (group rv 2) ;;
     sn <- lift (group rv 3) ;;
     fw <- lift (group rv 4) ;;
     let self := mkGPP dbg mfr mdl sn (strip fw) in
     _sendline self "*CLS" ;;
     _sendline self ":SYST:CLE" ;;
     _sendline self ":STAT:QUE:ENAB (-440:+900)" ;;
     ret self)
    (fun e => raise (GPPException (Repr e))) ;;
  dprint (Connected (manufacturer self) (model self) (serial self)
                    (version self)) ;;
  ret self.

(** The dictionary display of [update] as a computation that does not
    touch the connection. *)
Fixpoint readings_of (chn : Z) (chs : list (list string))
  : result (list (Z * reading)) :=
  match chs with
  | [] => Ok []
  | ch :: chs' =>
      rbind (index ch 0) (fun f0 =>
      rbind (py_float f0) (fun v =>
      rbind (index ch 1) (fun f1 =>
      rbind (py_float f1) (fun i =>
      rbind (index ch 2) (fun f2 =>
      rbind (py_float f2) (fun p =>
      rbind (readings_of (chn + 1)%Z chs') (fun rest =>
      Ok ((chn + 1, mkReading v i p (chn + 1) None)%Z :: rest))))))))
  end.

(** What [update] makes of the answer to the measurement query. *)
Definition reply_readings (l : string) : result (list (Z * reading)) :=
  rbind (decode_utf8 l) (fun s =>
  rbind (group (search pat_meas s) 1) (fun g =>
  readings_of 0 (map (split ",") (split ";" g)))).

Definition with_mode (m : string) (r : reading) : reading :=
  mkReading (voltage r) (current r) (power r) (channel_no r) (Some m).

(** The snapshot once the first entries were given the modes [ms]. *)
Fixpoint with_modes (d : list (Z * reading)) (ms : list string)
  : list (Z * reading) :=
  match d, ms with
  | kv :: d', m :: ms' => (fst kv, with_mode m (snd kv)) :: with_modes d' ms'
  | _, _ => d
  end.

Definition mode_query (chn : Z) : string := line (":MODE" ++ str_int chn ++ "?").

(** ** Text lemmas *)

Lemma is_ascii_app (a b : string) :
  is_ascii (a ++ b) = is_ascii a && is_ascii b.
Proof.
  induction a as [|c a IH]; simpl; [reflexivity|].
  now rewrite IH, andb_assoc.
Qed.

Lemma is_ascii_uint (d : Decimal.uint) :
  is_ascii (NilEmpty.string_of_uint d) = true.
Proof. induction d; simpl; auto. Qed.

Lemma is_ascii_str_int (z : Z) : is_ascii (str_int z) = true.
Proof.
  unfold str_int, NilZero.string_of_int, NilZero.string_of_uint.
  destruct (Z.to_int z) as [d|d]; destruct d; simpl; auto using is_ascii_uint.
Qed.

Lemma prefix_app (a b c : string) :
  startswith (a ++ b) (a ++ c) = startswith b c.
Proof.
  induction a as [|x a IH]; simpl; [reflexivity|].
  now rewrite Ascii.eqb_refl.
Qed.

Ltac ascii :=
  repeat rewrite is_ascii_app; repeat rewrite is_ascii_str_int;
  repeat match goal with
         | H : is_ascii ?s = true |- context [is_ascii ?s] => rewrite H
         end;
  reflexivity.

(** ** One step of the engine *)

Lemma readline_eq (w : world) :
  readline w =
  (Ok (hd "" (rx w)),
   mkWorld (online w) (tl (rx w)) (tx w) (console w) (data w)).
Proof. destruct w as [o r t c d]; destruct r; reflexivity. Qed.

Lemma sendline_ok (self : GPP4323) (l : string) (w : world) :
  is_ascii l = true -> _sendline self l w = (Ok tt, sent self l w).
Proof.
  intros Hl. unfold _sendline, bind, when, lift, encode_ascii, sent.
  rewrite is_ascii_app, Hl. simpl.
  destruct (debug self); reflexivity.
Qed.

Lemma expect_eq (self : GPP4323) (p : pattern) (w : world) :
  _expect self p w =
  (rbind (decode_utf8 (hd "" (rx w))) (fun s => Ok (search p s)),
   received self w).
Proof.
  unfold _expect, bind, when, lift, received. rewrite readline_eq.
  destruct (debug self); simpl;
    destruct (decode_utf8 (hd "" (rx w))); reflexivity.
Qed.

(** One turn of the loop of [wait], spelled out. *)
Lemma wait_loop_S (self : GPP4323) (t : nat) (w : world) :
  wait_loop self (S t) w =
  let w1 := received self (sent self "*ESR?" w) in
  match reply_value (hd "" (rx w)) with
  | Raise e => (Raise e, w1)
  | Ok v =>
      let w2 := noted (bit v 128) (PowerCycleNote (serial self)) w1 in
      if bit v 32
      then (Raise (RuntimeError "command syntax error from supply"), w2)
      else if bit v 16
      then (Raise (RuntimeError "execution error from supply"), w2)
      else if bit v 8
      then (Raise (RuntimeError "device error from supply"), w2)
      else
        let w3 := noted (bit v 4) (QueryErrorNote (serial self)) w2 in
        if bit v 1 then (Ok (S t), w3) else wait_loop self t w3
  end.
Proof.
  cbn [wait_loop]. unfold bind at 1.
  rewrite sendline_ok by reflexivity.
  unfold bind at 1. rewrite expect_eq.
  change (rx (sent self "*ESR?" w)) with (rx w).
  unfold reply_value.
  destruct (decode_utf8 (hd "" (rx w))) as [s|e]; simpl rbind; [|reflexivity].
  unfold bind at 1, lift at 1.
  destruct (group (search pat_digits s) 1) as [g|e]; simpl rbind; [|reflexivity].
  unfold bind at 1, lift at 1.
  destruct (py_int g) as [v|e]; [|reflexivity].
  unfold bind at 1, when, noted, dprint, ret, raise.
  destruct (bit v 128), (bit v 32), (bit v 16), (bit v 8); try reflexivity;
    unfold bind at 1; destruct (bit v 4), (bit v 1); reflexivity.
Qed.

(** ** The polling loop *)

Lemma rx_noted b t w : rx (noted b t w) = rx w.
Proof. destruct b; reflexivity. Qed.

Lemma tx_noted b t w : tx (noted b t w) = tx w.
Proof. destruct b; reflexivity. Qed.

Lemma quiet_bits (v : Z) :
  quiet v = true ->
  bit v 32 = false /\ bit v 16 = false /\ bit v 8 = false /\ bit v 1 = false.
Proof.
  unfold quiet. intros H.
  repeat (apply andb_true_iff in H; destruct H as [H ?]).
  repeat split; now apply negb_true_iff.
Qed.

(** A run of quiet answers uses up one try and one query each. *)
Lemma wait_loop_quiet (self : GPP4323) (t : nat) (polls rest : list string) :
  Forall quiet_line polls ->
  forall w, rx w = (polls ++ rest)%list ->
  exists w', wait_loop self (List.length polls + t) w = wait_loop self t w'
             /\ rx w' = rest
             /\ tx w' = (tx w ++ repeat ESR (List.length polls))%list.
Proof.
  induction 1 as [|l polls [v [Hv Hq]] _ IH]; intros w Hrx.
  - exists w. simpl. now rewrite app_nil_r.
  - apply quiet_bits in Hq. destruct Hq as (H32 & H16 & H8 & H1).
    cbn [List.length Nat.add]. rewrite wait_loop_S, Hrx. cbn [hd app].
    rewrite Hv. cbv zeta. rewrite H32, H16, H8, H1.
    match goal with |- context [wait_loop self _ ?w3] => set (w1 := w3) end.
    destruct (IH w1) as (w' & Hrun & Hrx' & Htx').
    { unfold w1. rewrite !rx_noted. simpl. now rewrite Hrx. }
    exists w'. split; [exact Hrun|]. split; [exact Hrx'|].
    rewrite Htx'. unfold w1. rewrite !tx_noted. simpl.
    now rewrite <- app_assoc.
Qed.

Lemma wait_eq (self : GPP4323) (w : world) :
  wait self w =
  match wait_loop self 5 (sent self "*OPC" w) with
  | (Ok O, w') => (Raise (RuntimeError "supply never became ready"), w')
  | (Ok (S _), w') => (Ok tt, w')
  | (Raise e, w') => (Raise e, w')
  end.
Proof.
  unfold wait, bind. rewrite sendline_ok by reflexivity.
  destruct (wait_loop self 5 (sent self "*OPC" w)) as [[[|k]|e] w'];
    reflexivity.
Qed.

(** The last turn, on an answer that ends the loop one way or the other. *)
Lemma wait_after_quiet (self : GPP4323) (w : world)
    (polls : list string) (l : string) (rest : list string) (v : Z) :
  rx w = (polls ++ l :: rest)%list ->
  List.length polls < 5 ->
  Forall quiet_line polls ->
  reply_value l = Ok v ->
  quiet v = false ->
  wait_ends self w
    (if bit v 32 then Raise (RuntimeError "command syntax error from supply")
     else if bit v 16 then Raise (RuntimeError "execution error from supply")
     else if bit v 8 then Raise (RuntimeError "device error from supply")
     else Ok tt)
    (S (List.length polls)) rest.
Proof.
  intros Hrx Hlen Hq Hv Hnq.
  assert (Ht : exists t, 5 = List.length polls + S t)
    by (exists (4 - List.length polls); lia).
  destruct Ht as [t Ht].
  destruct (wait_loop_quiet self (S t) polls (l :: rest) Hq
              (sent self "*OPC" w) Hrx) as (w' & Hrun & Hrx' & Htx').
  unfold wait_ends. rewrite wait_eq, Ht, Hrun, wait_loop_S, Hrx'.
  cbn [hd]. rewrite Hv. cbv zeta.
  assert (Htx : forall b1 t1 b2 t2,
             tx (noted b2 t2 (noted b1 t1 (received self (sent self "*ESR?" w'))))
             = (tx w ++ OPC :: repeat ESR (S (List.length polls)))%list).
  { intros. rewrite !tx_noted.
    change (tx (received self (sent self "*ESR?" w')))
      with (tx w' ++ [ESR])%list.
    rewrite Htx'.
    change (tx (sent self "*OPC" w)) with (tx w ++ [OPC])%list.
    rewrite <- !app_assoc. f_equal. cbn [app repeat]. f_equal.
    now rewrite <- repeat_cons. }
  assert (Hrx2 : forall b1 t1 b2 t2,
             rx (noted b2 t2 (noted b1 t1 (received self (sent self "*ESR?" w'))))
             = rest).
  { intros. rewrite !rx_noted. simpl. now rewrite Hrx'. }
  unfold quiet in Hnq.
  destruct (bit v 32), (bit v 16), (bit v 8), (bit v 1);
    try discriminate Hnq; cbn [fst snd];
    repeat split;
    first [ apply Htx | apply Hrx2
          | apply (Htx false (PowerCycleNote "")) 
          | apply (Hrx2 false (PowerCycleNote "")) ].
Qed.

Lemma reply_value_raise (l : string) (e : exn) :
  reply_value l = Raise e -> forall msg, e <> RuntimeError msg.
Proof.
  unfold reply_value, decode_utf8, group, py_int, rbind.
  destruct (is_ascii l); [|intros [= <-]; discriminate].
  destruct (search pat_digits l) as [gs|]; [|intros [= <-]; discriminate].
  destruct (nth_error gs (1 - 1)) as [g|]; [|intros [= <-]; discriminate].
  match goal with |- context [if ?c then _ else _] => destruct c end;
    [intros [= <-]; discriminate | discriminate].
Qed.

(** The count runs out only on as many quiet answers as there were tries. *)
Lemma wait_loop_exhausted (self : GPP4323) (t : nat) :
  forall w w',
    wait_loop self t w = (Ok O, w') ->
    exists polls, List.length polls = t
                  /\ rx w = (polls ++ rx w')%list
                  /\ Forall quiet_line polls.
Proof.
  induction t as [|t IH]; intros w w' H.
  - injection H as <-. now exists [].
  - rewrite wait_loop_S in H. cbv zeta in H.
    destruct (rx w) as [|l ls] eqn:Hrx; [discriminate H|]. cbn [hd] in H.
    destruct (reply_value l) as [v|e] eqn:Hv; [|discriminate H].
    destruct (bit v 32) eqn:H32; [discriminate H|].
    destruct (bit v 16) eqn:H16; [discriminate H|].
    destruct (bit v 8) eqn:H8; [discriminate H|].
    destruct (bit v 1) eqn:H1; [discriminate H|].
    apply IH in H. destruct H as (polls & Hlen & Hrest & Hq).
    rewrite !rx_noted in Hrest. cbn in Hrest. rewrite Hrx in Hrest.
    cbn in Hrest. exists (l :: polls). cbn. repeat split.
    + now rewrite Hlen.
    + now rewrite Hrest.
    + constructor; [|exact Hq]. exists v. split; [exact Hv|].
      unfold quiet. now rewrite H32, H16, H8, H1.
Qed.

(** The loop itself never raises the error of the exhausted count. *)
Lemma wait_loop_raises (self : GPP4323) (t : nat) :
  forall w w' e,
    wait_loop self t w = (Raise e, w') ->
    e <> RuntimeError "supply never became ready".
Proof.
  induction t as [|t IH]; intros w w' e H; [discriminate H|].
  rewrite wait_loop_S in H. cbv zeta in H.
  destruct (reply_value (hd "" (rx w))) as [v|e'] eqn:Hv.
  - destruct (bit v 32); [injection H as <- _; discriminate|].
    destruct (bit v 16); [injection H as <- _; discriminate|].
    destruct (bit v 8); [injection H as <- _; discriminate|].
    destruct (bit v 1); [discriminate H|].
    now apply IH in H.
  - injection H as <- _. now apply (reply_value_raise _ _ Hv).
Qed.

(** ** What a method writes *)

Lemma bind_assoc {A B C} (c : M A) (k1 : A -> M B) (k2 : B -> M C) (w : world) :
  bind (bind c k1) k2 w = bind c (fun a => bind (k1 a) k2) w.
Proof. unfold bind. destruct (c w) as [[a|e] w']; reflexivity. Qed.

Lemma bind_ret {A B} (a : A) (k : A -> M B) (w : world) :
  bind (ret a) k w = k a w.
Proof. reflexivity. Qed.

Lemma bind_sendline {B} (self : GPP4323) (l : string) (k : unit -> M B)
    (w : world) :
  is_ascii l = true -> bind (_sendline self l) k w = k tt (sent self l w).
Proof. intros H. unfold bind. now rewrite sendline_ok. Qed.

(** [_expect] followed by [group], as every caller has it. *)
Lemma bind_expect_group {B} (self : GPP4323) (p : pattern) (i : nat)
    (k : string -> M B) (w : world) :
  (rv <- _expect self p ;; g <- lift (group rv i) ;; k g) w =
  match rbind (decode_utf8 (hd "" (rx w))) (fun s => group (search p s) i) with
  | Ok g => k g (received self w)
  | Raise e => (Raise e, received self w)
  end.
Proof.
  unfold bind at 1. rewrite expect_eq.
  destruct (decode_utf8 (hd "" (rx w))) as [s|e]; cbn [rbind]; [|reflexivity].
  unfold bind, lift. destruct (group (search p s) i); reflexivity.
Qed.

Lemma writes_ret {A} P (a : A) : writes P (ret a).
Proof. intros w. exists []. cbn. now rewrite app_nil_r. Qed.

Lemma writes_raise {A} P (e : exn) : writes P (@raise A e).
Proof. intros w. exists []. cbn. now rewrite app_nil_r. Qed.

Lemma writes_lift {A} P (r : result A) : writes P (lift r).
Proof. intros w. exists []. cbn. now rewrite app_nil_r. Qed.

Lemma writes_dprint P (t : trace) : writes P (dprint t).
Proof. intros w. exists []. cbn. now rewrite app_nil_r. Qed.

Lemma writes_bind {A B} P (c : M A) (k : A -> M B) :
  writes P c -> (forall a, writes P (k a)) -> writes P (bind c k).
Proof.
  intros Hc Hk w. destruct (Hc w) as (x1 & E1 & F1). unfold bind.
  destruct (c w) as [[a|e] w1]; cbn [snd] in *.
  - destruct (Hk a w1) as (x2 & E2 & F2). exists (x1 ++ x2)%list.
    rewrite E2, E1, app_assoc. split; [reflexivity|].
    apply Forall_app. now split.
  - now exists x1.
Qed.

Lemma writes_when P (b : bool) (c : M unit) :
  writes P c -> writes P (when b c).
Proof. destruct b; [trivial | intros _; apply writes_ret]. Qed.

Lemma writes_sendline P (self : GPP4323) (l : string) :
  P (l ++ nl) -> writes P (_sendline self l).
Proof.
  intros HP w. unfold _sendline, bind, when, lift, encode_ascii.
  destruct (debug self), (is_ascii (l ++ nl)); cbn;
    first [ exists [l ++ nl]; split; [reflexivity | now constructor]
          | exists []; split; [now rewrite app_nil_r | constructor] ].
Qed.

Lemma writes_expect P (self : GPP4323) (p : pattern) : writes P (_expect self p).
Proof.
  intros w. rewrite expect_eq. exists []. cbn. now rewrite app_nil_r.
Qed.

Lemma writes_wait_loop P (self : GPP4323) (t : nat) :
  P ESR -> writes P (wait_loop self t).
Proof.
  intros HP. induction t as [|t IH]; [apply writes_ret|].
  cbn [wait_loop].
  apply writes_bind; [now apply writes_sendline|]. intros _.
  apply writes_bind; [apply writes_expect|]. intros m.
  apply writes_bind; [apply writes_lift|]. intros g.
  apply writes_bind; [apply writes_lift|]. intros v.
  apply writes_bind; [apply writes_when, writes_dprint|]. intros _.
  destruct (bit v 32); [apply writes_raise|].
  destruct (bit v 16); [apply writes_raise|].
  destruct (bit v 8); [apply writes_raise|].
  apply writes_bind; [apply writes_when, writes_dprint|]. intros _.
  destruct (bit v 1); [apply writes_ret | exact IH].
Qed.

(** [wait] writes the completion request and status queries, nothing else. *)
Lemma writes_wait P (self : GPP4323) :
  P OPC -> P ESR -> writes P (wait self).
Proof.
  intros H1 H2. unfold wait.
  apply writes_bind; [now apply writes_sendline|]. intros _.
  apply writes_bind; [now apply writes_wait_loop|]. intros k.
  destruct (k =? 0)%nat; [apply writes_raise | apply writes_ret].
Qed.

Lemma skipn_length_app {A} (l r : list A) : skipn (List.length l) (l ++ r) = r.
Proof. induction l; cbn; auto. Qed.

Lemma written_app (w w' : world) (extra : list string) :
  tx w' = (tx w ++ extra)%list -> written w w' = extra.
Proof. intros H. unfold written. rewrite H. apply skipn_length_app. Qed.

(** ** GPP4323._expect *)

(** C1, as it is worded, fails: on an answer without a digit the search for
    [(\d+)] finds nothing and [_expect] returns [None]; it raises nothing. *)
Lemma expect_no_match_counterexample :
  search pat_digits ("hello" ++ nl) = None
  /\ _expect bench pat_digits (fresh ["hello" ++ nl; "1" ++ nl])
     = (Ok None, fresh ["1" ++ nl]).
Proof. split; reflexivity. Qed.

(** C1, as the code has it: when the line read holds no match for the
    pattern, [_expect] returns [None] to its caller, the line being used up;
    the failure comes from the caller, as the AttributeError of taking a
    group of [None]. *)
Theorem expect_returns_None_without_match (self : GPP4323) (p : pattern)
    (w : world) (s : string) :
  decode_utf8 (hd "" (rx w)) = Ok s ->
  search p s = None ->
  _expect self p w = (Ok None, received self w)
  /\ (m <- _expect self p ;; lift (group m 1)) w
     = (Raise AttributeError, received self w).
Proof.
  intros Hd Hs. unfold bind. rewrite expect_eq, Hd. cbn [rbind].
  rewrite Hs. split; reflexivity.
Qed.

Lemma expect_returns_None_without_match_witness :
  _expect bench pat_token (fresh [" " ++ nl; "IND" ++ nl])
  = (Ok None, fresh ["IND" ++ nl]).
Proof.
  apply (proj1 (expect_returns_None_without_match bench pat_token
                  (fresh [" " ++ nl; "IND" ++ nl]) (" " ++ nl)
                  eq_refl eq_refl)).
Defined.

(** ** GPP4323.wait *)

(** C2: when the five answers to the status query all parse to a register
    value with none of the bits 0x01, 0x20, 0x10, 0x08, [wait] sends the
    query exactly five times after the completion request, reads those five
    answers and no more, and raises the error of the exhausted count
    ('supply never became ready', the Timeout of the specification). *)
Theorem wait_times_out_after_five (self : GPP4323) (w : world)
    (polls rest : list string) :
  rx w = (polls ++ rest)%list ->
  List.length polls = 5 ->
  Forall quiet_line polls ->
  wait_ends self w (Raise (RuntimeError "supply never became ready")) 5 rest.
Proof.
  intros Hrx Hlen Hq.
  destruct (wait_loop_quiet self 0 polls rest Hq (sent self "*OPC" w) Hrx)
    as (w' & Hrun & Hrx' & Htx').
  rewrite Hlen in Hrun, Htx'. unfold wait_ends.
  change (5 + 0) with 5 in Hrun. rewrite wait_eq, Hrun. cbn.
  repeat split; [|exact Hrx'].
  rewrite Htx'. change (tx (sent self "*OPC" w)) with (tx w ++ [OPC])%list.
  now rewrite <- app_assoc.
Qed.

Lemma wait_times_out_after_five_witness :
  Forall quiet_line five_quiet
  /\ wait_ends bench (fresh (five_quiet ++ ["1" ++ nl]))
       (Raise (RuntimeError "supply never became ready")) 5 ["1" ++ nl].
Proof.
  assert (Hq : Forall quiet_line five_quiet).
  { repeat constructor;
      [exists 0%Z | exists 128%Z | exists 4%Z | exists 132%Z | exists 0%Z];
      split; reflexivity. }
  split; [exact Hq|].
  apply (wait_times_out_after_five bench (fresh (five_quiet ++ ["1" ++ nl]))
           five_quiet ["1" ++ nl]); [reflexivity | reflexivity | exact Hq].
Defined.




(** C10: when four quiet answers are followed by one with bit 0x01 and no
    fatal bit, [wait] returns normally after its fifth query; and [wait]
    raises the error of the exhausted count only when it read five answers
    none of which had bit 0x01. *)
Theorem wait_succeeds_on_fifth_poll (self : GPP4323) (w : world) :
  (forall (polls : list string) (l : string) (rest : list string) (v : Z),
      rx w = (polls ++ l :: rest)%list ->
      List.length polls = 4 ->
      Forall quiet_line polls ->
      reply_value l = Ok v ->
      bit v 1 = true ->
      bit v 32 = false -> bit v 16 = false -> bit v 8 = false ->
      wait_ends self w (Ok tt) 5 rest)
  /\ (fst (wait self w) = Raise (RuntimeError "supply never became ready") ->
      exists polls rest,
        rx w = (polls ++ rest)%list
        /\ List.length polls = 5
        /\ Forall (fun l => exists v, reply_value l = Ok v /\ bit v 1 = false)
                  polls).
Proof.
  split.
  - intros polls l rest v Hrx Hlen Hq Hv H1 H32 H16 H8.
    assert (Hlt : List.length polls < 5) by lia.
    pose proof (wait_after_quiet self w polls l rest v Hrx Hlt Hq Hv) as H.
    unfold quiet in H. rewrite H1, H32, H16, H8, Hlen in H. now apply H.
  - rewrite wait_eq.
    destruct (wait_loop self 5 (sent self "*OPC" w)) as [[[|k]|e] w'] eqn:E;
      cbn [fst]; intros H.
    + apply wait_loop_exhausted in E. destruct E as (polls & Hlen & Hrx & Hq).
      exists polls, (rx w'). repeat split; [exact Hrx | exact Hlen |].
      apply Forall_impl with (2 := Hq). intros l (v & Hv & Hqv).
      exists v. split; [exact Hv|]. now apply quiet_bits in Hqv.
    + discriminate H.
    + injection H as ->. now apply wait_loop_raises in E.
Qed.

Lemma wait_succeeds_on_fifth_poll_witness :
  wait_ends bench
    (fresh ["0" ++ nl; "0" ++ nl; "128" ++ nl; "0" ++ nl; "1" ++ nl; "7" ++ nl])
    (Ok tt) 5 ["7" ++ nl].
Proof.
  apply (proj1 (wait_succeeds_on_fifth_poll bench
           (fresh ["0" ++ nl; "0" ++ nl; "128" ++ nl; "0" ++ nl; "1" ++ nl;
                   "7" ++ nl]))
           ["0" ++ nl; "0" ++ nl; "128" ++ nl; "0" ++ nl] ("1" ++ nl)
           ["7" ++ nl] 1%Z);
    try reflexivity.
  repeat constructor; [exists 0%Z | exists 0%Z | exists 128%Z | exists 0%Z];
    split; reflexivity.
Defined.

(** ** GPP4323.__init__ *)

(** C4, as it is worded, fails: with a host and a serial pair both given the
    constructor connects to the host and succeeds. *)
Lemma init_both_links_counterexample :
  fst (GPP4323_init (Some ("192.168.1.72", 1026%Z))
         (Some (Some "/dev/ttyUSB0", Some (VInt 115200))) false
         (fresh [idn_answer]))
  = Ok bench.
Proof. reflexivity. Qed.

(** C4, as the code has it: without a host and without a complete serial
    pair the constructor raises its own exception before anything is sent or
    printed; with a host it takes the host, whatever the serial pair is, and
    never raises that exception. *)
Theorem init_requires_a_link :
  (forall sport dbg w,
      serial_given sport = false ->
      GPP4323_init None sport dbg w = (Raise (GPPException (Text need_link)), w))
  /\ (forall h sport dbg w,
         GPP4323_init (Some h) sport dbg w = GPP4323_init (Some h) None dbg w
         /\ fst (GPP4323_init (Some h) sport dbg w)
            <> Raise (GPPException (Text need_link))).
Proof.
  split.
  - intros [[[port|] [speed|]]|] dbg w H; try discriminate H; reflexivity.
  - intros h sport dbg w. split; [reflexivity|].
    unfold GPP4323_init. unfold bind at 1. unfold bind at 1.
    unfold dprint at 1, open_link. cbn [online].
    destruct (online w); [|discriminate].
    unfold bind at 1, try_except.
    match goal with |- context [match ?c ?w1 with _ => _ end] =>
      destruct (c w1) as [[a|e] w2] end; cbn; discriminate.
Qed.

Lemma init_requires_a_link_witness :
  GPP4323_init None (Some (Some "/dev/ttyUSB0", None)) false (fresh [idn_answer])
  = (Raise (GPPException (Text need_link)), fresh [idn_answer]).
Proof.
  apply (proj1 init_requires_a_link (Some (Some "/dev/ttyUSB0", None)) false
           (fresh [idn_answer]) eq_refl).
Defined.

(** ** Channel.sequence *)

Lemma eq_True_int (z : Z) : eq_True (VInt z) = true <-> z = 1%Z.
Proof. cbn. apply Z.eqb_eq. Qed.

(** C5 fails on the count 1: [1 == True] holds in Python, so [sequence]
    writes the endless marker for a sequence that is to run once, and the
    count never reaches the wire. *)
Theorem sequence_count_one_writes_endless_marker :
  cycles run_once = VInt 1
  /\ tx (snd (sequence (mkChannel bench 1) run_once true
                 (fresh ["1" ++ nl; "1" ++ nl])))
     = [":SEQU1:STAT OFF" ++ nl; ":SEQU1:GROUP 1" ++ nl;
        ":SEQU1:PARA 0,5.0,1.0,2.0" ++ nl; ":SEQU1:STAR 0" ++ nl;
        ":SEQU1:CYCLE I" ++ nl; ":SEQU1:ENDS 0" ++ nl; OPC; ESR;
        ":SEQU1:STAT ON" ++ nl; OPC; ESR; ":DISP:TYPE 1" ++ nl].
Proof. split; reflexivity. Qed.

(** ** Channel.set_load *)

(** C6: with none or with more than one of [cv], [cc], [cr] given,
    [set_load] raises ValueError and leaves the connection as it was: nothing
    is written and nothing is read. *)
Theorem set_load_rejects_bad_arity (self : Channel) (cv cc cr : value)
    (w : world) :
  supplied cv cc cr <> 1 ->
  set_load self cv cc cr w
  = (Raise (ValueError
              ("supply can track only one of CV / CC / CR mode at a time "
               ++ str cc ++ " " ++ str cv ++ " " ++ str cr)), w).
Proof.
  intros H. unfold set_load.
  destruct cv, cc, cr; cbn in H; try (exfalso; apply H; reflexivity);
    reflexivity.
Qed.

Lemma set_load_rejects_bad_arity_witness :
  set_load (mkChannel bench 1) (VFloat "5.0") (VFloat "1.5") VNone
    (fresh ["1" ++ nl; "CV" ++ nl])
  = (Raise (ValueError
              "supply can track only one of CV / CC / CR mode at a time 1.5 5.0 None"),
     fresh ["1" ++ nl; "CV" ++ nl]).
Proof.
  apply (set_load_rejects_bad_arity (mkChannel bench 1) (VFloat "5.0")
           (VFloat "1.5") VNone (fresh ["1" ++ nl; "CV" ++ nl])).
  cbn. lia.
Defined.

(** ** Channel.set_source *)

(** C7: on channels 1 and 2, when [wait] has returned and the answer to the
    mode query carries a token other than IND, [set_source] raises its
    'failed to switch' error, the mode query being the last line written; on
    any other channel, 3 and 4 among them, [set_source] ends with [wait]:
    its outcome is that of [wait], and no mode query is written. *)
Theorem set_source_verifies_mode (self : Channel) (voltage current : value)
    (w : world) :
  is_ascii (str voltage) = true ->
  is_ascii (str current) = true ->
  (n self = 1%Z \/ n self = 2%Z ->
   forall (polls : list string) (l reply : string) (rest : list string)
          (v : Z) (m : string),
     rx w = (polls ++ l :: reply :: rest)%list ->
     List.length polls < 5 ->
     Forall quiet_line polls ->
     reply_value l = Ok v ->
     bit v 1 = true ->
     bit v 32 = false -> bit v 16 = false -> bit v 8 = false ->
     reply_token reply = Ok m ->
     m <> "IND" ->
     fst (set_source self voltage current w)
     = Raise (RuntimeError "supply failed to switch to source mode")
     /\ written w (snd (set_source self voltage current w))
        = ([line "TRACK0";
            line (":LOAD" ++ str_int (n self) ++ ":CC OFF");
            line (":SOUR" ++ str_int (n self) ++ ":CURR " ++ str current);
            line (":SOUR" ++ str_int (n self) ++ ":VOLT " ++ str voltage);
            OPC]
           ++ repeat ESR (S (List.length polls))
           ++ [line (":MODE" ++ str_int (n self) ++ "?")])%list
     /\ rx (snd (set_source self voltage current w)) = rest)
  /\ (n self <> 1%Z -> n self <> 2%Z ->
      set_source self voltage current w
      = wait (gpp self)
          (sent (gpp self) (":SOUR" ++ str_int (n self) ++ ":VOLT " ++ str voltage)
             (sent (gpp self) (":SOUR" ++ str_int (n self) ++ ":CURR " ++ str current)
                (sent (gpp self) "TRACK0" w)))
      /\ ~ In (line (":MODE" ++ str_int (n self) ++ "?"))
             (written w (snd (set_source self voltage current w)))).
Proof.
  intros Hv Hc. split.
  - intros Hn polls l reply rest v m Hrx Hlen Hq Hval H1 H32 H16 H8 Hm Hne.
    assert (Hb : ((n self =? 1) || (n self =? 2))%Z = true)
      by (destruct Hn as [-> | ->]; reflexivity).
    set (w0 := sent (gpp self)
                 (":SOUR" ++ str_int (n self) ++ ":VOLT " ++ str voltage)
                 (sent (gpp self)
                    (":SOUR" ++ str_int (n self) ++ ":CURR " ++ str current)
                    (sent (gpp self) (":LOAD" ++ str_int (n self) ++ ":CC OFF")
                       (sent (gpp self) "TRACK0" w)))).
    assert (Hrx0 : rx w0 = (polls ++ l :: reply :: rest)%list) by exact Hrx.
    pose proof (wait_after_quiet (gpp self) w0 polls l (reply :: rest) v
                  Hrx0 Hlen Hq Hval) as Hw.
    unfold quiet in Hw. rewrite H1, H32, H16, H8 in Hw.
    specialize (Hw (andb_false_r _)). destruct Hw as (Hr & Htx & Hrx1).
    destruct (wait (gpp self) w0) as [r w1] eqn:Ew.
    cbn [fst snd] in Hr, Htx, Hrx1. subst r.
    apply String.eqb_neq in Hne. unfold reply_token in Hm.
    assert (E : set_source self voltage current w
                = (Raise (RuntimeError "supply failed to switch to source mode"),
                   received (gpp self)
                     (sent (gpp self) (":MODE" ++ str_int (n self) ++ "?") w1))).
    { unfold set_source. rewrite Hb. cbv zeta. unfold when.
      do 4 rewrite bind_sendline by ascii.
      unfold bind at 1. unfold w0 in Ew. rewrite Ew.
      rewrite bind_sendline by ascii. rewrite bind_expect_group.
      change (rx (sent (gpp self) (":MODE" ++ str_int (n self) ++ "?") w1))
        with (rx w1).
      rewrite Hrx1. cbn [hd]. rewrite Hm, Hne. reflexivity. }
    rewrite E. cbn [fst snd]. split; [reflexivity|]. split.
    + apply written_app. cbn [tx received sent]. rewrite Htx. unfold w0.
      cbn [tx sent]. rewrite <- !app_assoc. reflexivity.
    + cbn. now rewrite Hrx1.
  - intros N1 N2.
    assert (Hb : ((n self =? 1) || (n self =? 2))%Z = false).
    { apply orb_false_iff. split; now apply Z.eqb_neq. }
    assert (E : set_source self voltage current w
                = wait (gpp self)
                    (sent (gpp self) (":SOUR" ++ str_int (n self) ++ ":VOLT " ++ str voltage)
                       (sent (gpp self) (":SOUR" ++ str_int (n self) ++ ":CURR " ++ str current)
                          (sent (gpp self) "TRACK0" w)))).
    { unfold set_source. rewrite Hb. cbv zeta. unfold when.
      rewrite bind_sendline by ascii. rewrite bind_ret.
      rewrite bind_sendline by ascii.
      rewrite bind_sendline by ascii.
      unfold bind.
      match goal with |- context [wait (gpp self) ?W] =>
        destruct (wait (gpp self) W) as [[[]|e] w1] end; reflexivity. }
    split; [exact E|]. rewrite E.
    match goal with |- context [wait (gpp self) ?W] => set (w0 := W) end.
    destruct (writes_wait (fun x => x = OPC \/ x = ESR) (gpp self)
                (or_introl eq_refl) (or_intror eq_refl) w0)
      as (extra & Htx & HP).
    rewrite (written_app w _ ([line "TRACK0";
               line (":SOUR" ++ str_int (n self) ++ ":CURR " ++ str current);
               line (":SOUR" ++ str_int (n self) ++ ":VOLT " ++ str voltage)]
               ++ extra)%list).
    + intros Hin. apply in_app_or in Hin. destruct Hin as [Hin | Hin].
      * cbn in Hin. destruct Hin as [H | [H | [H | []]]]; discriminate H.
      * rewrite Forall_forall in HP. apply HP in Hin.
        destruct Hin as [H | H]; discriminate H.
    + rewrite Htx. unfold w0. cbn [tx sent]. rewrite <- !app_assoc.
      reflexivity.
Qed.

Lemma set_source_verifies_mode_witness :
  fst (set_source (mkChannel bench 1) (VFloat "5.0") (VFloat "1.0")
         (fresh ["1" ++ nl; "CV" ++ nl]))
  = Raise (RuntimeError "supply failed to switch to source mode")
  /\ ~ In (line ":MODE3?")
          (written (fresh ["1" ++ nl; "CV" ++ nl])
             (snd (set_source (mkChannel bench 3) (VFloat "5.0") (VFloat "1.0")
                     (fresh ["1" ++ nl; "CV" ++ nl])))).
Proof.
  split.
  - apply (proj1 (set_source_verifies_mode (mkChannel bench 1) (VFloat "5.0")
                    (VFloat "1.0") (fresh ["1" ++ nl; "CV" ++ nl])
                    eq_refl eq_refl)
             (or_introl eq_refl) [] ("1" ++ nl) ("CV" ++ nl) [] 1%Z "CV"
             eq_refl ltac:(cbn; lia) (Forall_nil _) eq_refl eq_refl eq_refl
             eq_refl eq_refl eq_refl ltac:(discriminate)).
  - apply (proj2 (set_source_verifies_mode (mkChannel bench 3) (VFloat "5.0")
                    (VFloat "1.0") (fresh ["1" ++ nl; "CV" ++ nl])
                    eq_refl eq_refl)
             ltac:(discriminate) ltac:(discriminate)).
Defined.

(** ** Channel.monitor *)

Lemma string_app_assoc (a b c : string) : ((a ++ b) ++ c = a ++ (b ++ c))%string.
Proof. induction a as [|x a IH]; cbn; [reflexivity | now rewrite IH]. Qed.

Lemma prefix_moni (self : Channel) (a x : string) :
  startswith (moni self ++ a) ((moni self ++ x) ++ nl)
  = startswith a (x ++ nl).
Proof. now rewrite string_app_assoc, prefix_app. Qed.

Lemma filter_none {A} (f : A -> bool) (P : A -> Prop) (l : list A) :
  Forall P l -> (forall x, P x -> f x = false) -> filter f l = [].
Proof.
  intros H Hf. induction H as [|x l Hx _ IH]; cbn; [reflexivity|].
  now rewrite (Hf x Hx).
Qed.

Lemma after_stops_prefix (self : Channel) (a : string) :
  startswith a (":STAT ON" ++ nl) = false ->
  forall l, after_stops self l -> startswith (moni self ++ a) l = false.
Proof.
  intros Ha l [-> | [-> | [-> | ->]]];
    [reflexivity | reflexivity | unfold line; now rewrite prefix_moni
    | reflexivity].
Qed.

Lemma writes_after_stops (self : Channel) (b : bool) :
  writes (after_stops self)
    (wait (gpp self) ;;
     when b (_sendline (gpp self) (moni self ++ ":STAT ON")) ;;
     wait (gpp self) ;;
     _sendline (gpp self) ":DISP:TYPE 1").
Proof.
  unfold after_stops.
  apply writes_bind; [apply writes_wait; auto|]. intros _.
  apply writes_bind; [apply writes_when, writes_sendline; auto|]. intros _.
  apply writes_bind; [apply writes_wait; auto|]. intros _.
  apply writes_sendline. auto.
Qed.

(** C8: whatever conditions and trigger mask are given, [monitor] writes one
    condition command for the current, one for the voltage and one for the
    power, each carrying the condition given or NONE, and four stop commands,
    in this order: BEEPER,ON, then OUTOFF, ALARM and BEEPER with the state the
    mask gives them.  They are written before the first [wait], so they do
    not depend on the answers of the instrument. *)
Theorem monitor_writes_every_setting (self : Channel)
    (current voltage power : option (string * value)) (trigger : Z)
    (w : world) :
  encodable current = true ->
  encodable voltage = true ->
  encodable power = true ->
  filter (startswith (moni self ++ ":CURR:COND "))
         (written w (snd (monitor self current voltage power trigger w)))
  = [line (moni self ++ ":CURR:COND "
           ++ match current with
              | Some c => fst c ++ "C,AND"
              | None => "NONE,NONE"
              end)]
  /\ filter (startswith (moni self ++ ":VOLT:COND "))
            (written w (snd (monitor self current voltage power trigger w)))
     = [line (moni self ++ ":VOLT:COND "
              ++ match voltage with
                 | Some c => fst c ++ "V,AND"
                 | None => "NONE,NONE"
                 end)]
  /\ filter (startswith (moni self ++ ":POWER:COND "))
            (written w (snd (monitor self current voltage power trigger w)))
     = [line (moni self ++ ":POWER:COND "
              ++ match power with
                 | Some c => fst c ++ "P"
                 | None => "NONE"
                 end)]
  /\ filter (startswith (moni self ++ ":STOP "))
            (written w (snd (monitor self current voltage power trigger w)))
     = [line (moni self ++ ":STOP BEEPER,ON");
        line (moni self ++ ":STOP OUTOFF,"
              ++ on_off (bit trigger Monitor.TRIG_OUTOFF));
        line (moni self ++ ":STOP ALARM,"
              ++ on_off (bit trigger Monitor.TRIG_ALARM));
        line (moni self ++ ":STOP BEEPER,"
              ++ on_off (bit trigger Monitor.TRIG_BEEPER))].
Proof.
  intros Hc Hv Hp.
  assert (Hm : is_ascii (moni self) = true) by (unfold moni; ascii).
  assert (Ho : forall b, is_ascii (on_off b) = true) by (now intros []).
  destruct current as [[c1 c2]|], voltage as [[v1 v2]|], power as [[p1 p2]|];
    cbn [encodable fst snd] in Hc, Hv, Hp;
    repeat match goal with
           | H : _ && _ = true |- _ => apply andb_true_iff in H; destruct H
           end;
    unfold monitor; cbn [truthy negb when fst snd];
    repeat first [ rewrite bind_assoc | rewrite bind_ret
                 | rewrite bind_sendline by (rewrite ?is_ascii_app, ?Ho, ?Hm; ascii) ];
    match goal with
    | |- context [bind (wait (gpp self))
                    (fun _ => bind (when ?b _) _) ?W] =>
        destruct (writes_after_stops self b W) as (extra & Htx & HP);
        let t := eval cbn [tx sent] in (tx W) in
        change (tx W) with t in Htx
    end.
  all: rewrite <- !app_assoc in Htx; apply written_app in Htx.
  all: rewrite Htx; cbn [orb truthy]; repeat split;
    repeat rewrite filter_app;
    rewrite (filter_none _ _ extra HP)
      by (apply after_stops_prefix; reflexivity);
    cbn [filter app]; repeat rewrite prefix_moni; reflexivity.
Qed.

Lemma monitor_writes_every_setting_witness :
  filter (startswith ":MONI2:STOP ")
         (written (fresh ["1" ++ nl; "1" ++ nl])
            (snd (monitor (mkChannel bench 2)
                    (Some (Monitor.ABOVE (VFloat "1.5"))) Monitor.NONE
                    (Some (Monitor.BELOW (VInt 10)))
                    (Z.lor Monitor.TRIG_OUTOFF Monitor.TRIG_ALARM)
                    (fresh ["1" ++ nl; "1" ++ nl]))))
  = [line ":MONI2:STOP BEEPER,ON"; line ":MONI2:STOP OUTOFF,ON";
     line ":MONI2:STOP ALARM,ON"; line ":MONI2:STOP BEEPER,OFF"].
Proof.
  apply (proj2 (proj2 (proj2
           (monitor_writes_every_setting (mkChannel bench 2)
              (Some (Monitor.ABOVE (VFloat "1.5"))) Monitor.NONE
              (Some (Monitor.BELOW (VInt 10)))
              (Z.lor Monitor.TRIG_OUTOFF Monitor.TRIG_ALARM)
              (fresh ["1" ++ nl; "1" ++ nl]) eq_refl eq_refl eq_refl)))).
Defined.

(** ** Measurement.update *)

(** C9: on the aggregate answer above and the mode answers CV and IND,
    [update] asks for the measurements once and for the mode of channels 1
    and 2 in turn, and leaves a snapshot of two entries keyed 1 and 2 with the
    three numbers and the mode of each. *)
Theorem update_two_channels (self : GPP4323) :
  fst (update self (fresh two_channels)) = Ok tt
  /\ data (snd (update self (fresh two_channels))) =
     Some [(1%Z, mkReading 1.234%Q 0.500%Q 0.617%Q 1 (Some "CV"));
           (2%Z, mkReading 5.000%Q 1.000%Q 5.000%Q 2 (Some "IND"))]
  /\ tx (snd (update self (fresh two_channels)))
     = [":MEAS?" ++ nl; ":MODE1?" ++ nl; ":MODE2?" ++ nl]
  /\ rx (snd (update self (fresh two_channels))) = [].
Proof. destruct self as [[|] mfr mdl sn fw]; repeat split. Qed.

(** ** The patterns with one group *)

Lemma string_app_nil (a : string) : (a ++ "")%string = a.
Proof. induction a as [|x a IH]; cbn; [reflexivity | now rewrite IH]. Qed.

Lemma admits_plus_app (acc : string) (c : ascii) (t : string) :
  admits Plus (acc ++ String c t) = true.
Proof. destruct acc; reflexivity. Qed.

(** The repetition that ends a pattern takes the whole run. *)
Lemma rep_last (cls : ascii -> bool) (s acc : string) :
  rep cls (fun g rest =>
             if admits Plus g
             then option_map (cons g) (match_here [] rest)
             else None) acc s
  = if admits Plus (acc ++ take_while cls s)
    then Some [(acc ++ take_while cls s)%string]
    else None.
Proof.
  revert acc. induction s as [|c s IH]; intros acc; cbn [rep take_while].
  - rewrite string_app_nil. now destruct (admits Plus acc).
  - destruct (cls c).
    + rewrite IH, string_app_assoc. cbn [append].
      now rewrite admits_plus_app.
    + rewrite string_app_nil. now destruct (admits Plus acc).
Qed.

(** A pattern of one repeated class finds the first maximal run of the
    class. *)
Lemma search_one_class (cls : ascii -> bool) (s : string) :
  search [Group Plus cls] s = option_map (fun r => [r]) (first_run cls s).
Proof.
  induction s as [|c s IH].
  - reflexivity.
  - cbn [search match_here]. rewrite rep_last. cbn [append take_while first_run].
    destruct (cls c); [reflexivity|]. cbn [admits]. exact IH.
Qed.

Lemma take_while_all (cls : ascii -> bool) (s : string) :
  all_chars cls (take_while cls s) = true.
Proof.
  induction s as [|c s IH]; cbn; [reflexivity|].
  destruct (cls c) eqn:E; cbn; [now rewrite E|reflexivity].
Qed.

Lemma first_run_some (cls : ascii -> bool) (s r : string) :
  first_run cls s = Some r -> all_chars cls r = true /\ r <> "".
Proof.
  induction s as [|c s IH]; cbn; [discriminate|].
  destruct (cls c) eqn:E; [|exact IH].
  intros [= <-]. cbn. rewrite E, take_while_all. split; [reflexivity|discriminate].
Qed.

Lemma first_run_none (cls : ascii -> bool) (s : string) :
  first_run cls s = None <-> all_chars (fun c => negb (cls c)) s = true.
Proof.
  induction s as [|c s IH]; cbn; [tauto|].
  destruct (cls c); cbn; [split; discriminate | exact IH].
Qed.

(** X1: the mode token a channel operation reads from an ASCII answer is
    the first maximal run of characters that are not white space; the group
    access raises AttributeError exactly when the answer has no such
    character. *)
Theorem mode_token_is_first_word (l : string) :
  is_ascii l = true ->
  reply_token l
  = match first_run (fun c => negb (isspace c)) l with
    | Some m => Ok m
    | None => Raise AttributeError
    end
  /\ (reply_token l = Raise AttributeError <-> all_chars isspace l = true).
Proof.
  intros Ha. unfold reply_token, decode_utf8. rewrite Ha. cbn [rbind].
  unfold pat_token. rewrite search_one_class.
  destruct (first_run (fun c => negb (isspace c)) l) as [m|] eqn:E; cbn.
  - split; [reflexivity|]. split; [discriminate|]. intros Hs.
    assert (N : first_run (fun c => negb (isspace c)) l = None).
    { apply first_run_none. erewrite <- Hs. clear. induction l as [|c l IH]; cbn.
      - reflexivity.
      - now rewrite negb_involutive, IH. }
    congruence.
  - split; [reflexivity|]. split; [|reflexivity]. intros _.
    apply first_run_none in E. rewrite <- E. clear.
    induction l as [|c l IH]; cbn; [reflexivity|].
    now rewrite negb_involutive, IH.
Qed.

Lemma mode_token_is_first_word_witness :
  reply_token (" IND" ++ String "013" nl) = Ok "IND".
Proof.
  rewrite (proj1 (mode_token_is_first_word (" IND" ++ String "013" nl) eq_refl)).
  reflexivity.
Defined.

(** X2: the register value [wait] reads from an ASCII answer is the number
    written by the first run of digits of the answer, wherever it stands; an
    answer without a digit raises AttributeError. *)
Theorem status_value_is_first_number (l : string) :
  is_ascii l = true ->
  match first_run isdigit l with
  | Some d =>
      (String.length d <= 4300)%nat -> reply_value l = Ok (digits_val 0 d)
  | None => reply_value l = Raise AttributeError
  end.
Proof.
  intros Ha. unfold reply_value, decode_utf8. rewrite Ha. cbn [rbind].
  unfold pat_digits. rewrite search_one_class.
  destruct (first_run isdigit l) as [d|] eqn:E; cbn; [|reflexivity].
  intros Hlen. apply first_run_some in E. destruct E as [Hd Hne].
  unfold py_int. rewrite Hd. cbn [negb orb].
  destruct d as [|c d]; [congruence|].
  apply Nat.ltb_ge in Hlen. rewrite Hlen. reflexivity.
Qed.

Lemma status_value_is_first_number_witness :
  reply_value ("ESR 16;" ++ nl) = Ok 16%Z.
Proof.
  apply (status_value_is_first_number ("ESR 16;" ++ nl) eq_refl).
  cbn. lia.
Defined.

(** ** More on GPP4323.wait *)

(** X3: [wait] returns at the first answer that has bit 0x01 and no fatal
    bit, whichever of the five turns it comes in: it has sent one query per
    answer read, and the answers that follow stay unread. *)
Theorem wait_returns_at_first_completion (self : GPP4323) (w : world)
    (polls : list string) (l : string) (rest : list string) :
  rx w = (polls ++ l :: rest)%list ->
  completing polls l ->
  wait_ends self w (Ok tt) (S (List.length polls)) rest.
Proof.
  intros Hrx (Hlen & Hq & v & Hv & H1 & H32 & H16 & H8).
  pose proof (wait_after_quiet self w polls l rest v Hrx Hlen Hq Hv) as H.
  unfold quiet in H. rewrite H1, H32, H16, H8 in H. now apply H.
Qed.

Lemma wait_returns_at_first_completion_witness :
  wait_ends bench (fresh ["0" ++ nl; "129" ++ nl; "32" ++ nl]) (Ok tt) 2
            ["32" ++ nl].
Proof.
  apply (wait_returns_at_first_completion bench
           (fresh ["0" ++ nl; "129" ++ nl; "32" ++ nl])
           ["0" ++ nl] ("129" ++ nl) ["32" ++ nl] eq_refl).
  split; [cbn; lia|]. split.
  - repeat constructor. exists 0%Z. split; reflexivity.
  - exists 129%Z. repeat split.
Defined.

Lemma skipn_tl {A} (k : nat) (l : list A) : skipn k (tl l) = skipn (S k) l.
Proof. destruct l; [now destruct k | reflexivity]. Qed.

Lemma wait_loop_bounded (self : GPP4323) (t : nat) :
  forall w, exists k,
    k <= t /\ (0 < t -> 0 < k)
    /\ tx (snd (wait_loop self t w)) = (tx w ++ repeat ESR k)%list
    /\ rx (snd (wait_loop self t w)) = skipn k (rx w).
Proof.
  induction t as [|t IH]; intros w.
  - exists 0. cbn. rewrite app_nil_r. repeat split; lia.
  - rewrite wait_loop_S. cbv zeta.
    assert (One : forall b1 t1 b2 t2 (r : result nat),
               exists k, k <= S t /\ (0 < S t -> 0 < k)
                 /\ tx (snd (r, noted b2 t2 (noted b1 t1
                          (received self (sent self "*ESR?" w)))))
                    = (tx w ++ repeat ESR k)%list
                 /\ rx (snd (r, noted b2 t2 (noted b1 t1
                          (received self (sent self "*ESR?" w)))))
                    = skipn k (rx w)).
    { intros. exists 1. cbn [snd]. rewrite !tx_noted, !rx_noted.
      repeat split; lia. }
    destruct (reply_value (hd "" (rx w))) as [v|e].
    + destruct (bit v 32); [apply (One false (PowerCycleNote ""))|].
      destruct (bit v 16); [apply (One false (PowerCycleNote ""))|].
      destruct (bit v 8); [apply (One false (PowerCycleNote ""))|].
      destruct (bit v 1); [apply One|].
      match goal with |- context [wait_loop self t ?w3] =>
        destruct (IH w3) as (k & Hk & _ & Htx & Hrx) end.
      exists (S k). rewrite Htx, Hrx, !tx_noted, !rx_noted.
      cbn [tx rx received sent]. rewrite skipn_tl, <- app_assoc.
      repeat split; [lia | lia].
    + apply (One false (PowerCycleNote "") false (PowerCycleNote "")).
Qed.

(** X4: whatever the instrument answers, [wait] writes the completion
    request and then between one and five status queries, nothing else, and
    it reads exactly one answer per query. *)
Theorem wait_is_bounded (self : GPP4323) (w : world) :
  exists k,
    1 <= k <= 5
    /\ tx (snd (wait self w)) = (tx w ++ OPC :: repeat ESR k)%list
    /\ rx (snd (wait self w)) = skipn k (rx w).
Proof.
  destruct (wait_loop_bounded self 5 (sent self "*OPC" w))
    as (k & Hk & Hpos & Htx & Hrx).
  exists k. rewrite wait_eq.
  destruct (wait_loop self 5 (sent self "*OPC" w)) as [[[|j]|e] w'];
    cbn [snd] in *; rewrite Htx, Hrx; cbn [tx rx sent];
    rewrite <- app_assoc; repeat split; lia.
Qed.

(** X5: an answer that cannot be read as a register value, coming after
    fewer than five quiet ones, ends [wait] with the error of the reading and
    not with the error of the exhausted count; an instrument that stops
    answering, read as the empty line, ends it with AttributeError. *)
Theorem wait_fails_on_unreadable_answer (self : GPP4323) (w : world)
    (polls tail : list string) (e : exn) :
  rx w = (polls ++ tail)%list ->
  List.length polls < 5 ->
  Forall quiet_line polls ->
  reply_value (hd "" tail) = Raise e ->
  wait_ends self w (Raise e) (S (List.length polls)) (tl tail)
  /\ (tail = [] -> e = AttributeError).
Proof.
  intros Hrx Hlen Hq He.
  assert (Ht : exists t, 5 = List.length polls + S t)
    by (exists (4 - List.length polls); lia).
  destruct Ht as [t Ht].
  destruct (wait_loop_quiet self (S t) polls tail Hq
              (sent self "*OPC" w) Hrx) as (w' & Hrun & Hrx' & Htx').
  split.
  - unfold wait_ends. rewrite wait_eq, Ht, Hrun, wait_loop_S, Hrx', He.
    cbv zeta. cbn [fst snd tx rx received sent]. rewrite Hrx', Htx'.
    cbn [tx sent]. rewrite <- !app_assoc. repeat split.
    cbn [app]. f_equal. f_equal.
    change (ESR :: repeat ESR (List.length polls))
      with (repeat ESR (S (List.length polls))).
    symmetry. apply repeat_cons.
  - intros ->. cbn in He. now injection He as <-.
Qed.

Lemma wait_fails_on_unreadable_answer_witness :
  wait_ends bench (fresh ["0" ++ nl]) (Raise AttributeError) 2 [].
Proof.
  apply (proj1 (wait_fails_on_unreadable_answer bench (fresh ["0" ++ nl])
                  ["0" ++ nl] [] AttributeError eq_refl
                  ltac:(cbn; lia)
                  ltac:(repeat constructor; exists 0%Z; split; reflexivity)
                  eq_refl)).
Defined.

Lemma register_values_read_back :
  forallb (fun k => match reply_value (str_int (Z.of_nat k) ++ nl) with
                    | Ok v => (v =? Z.of_nat k)%Z
                    | Raise _ => false
                    end) (seq 0 256) = true.
Proof. vm_compute. reflexivity. Qed.

(** X6: every value of the eight-bit status register, written in decimal on
    a line of its own, is read by the poll of [wait] as that value. *)
Theorem register_round_trip (v : Z) :
  (0 <= v < 256)%Z -> reply_value (str_int v ++ nl) = Ok v.
Proof.
  intros Hv. pose proof register_values_read_back as H.
  rewrite forallb_forall in H. specialize (H (Z.to_nat v)).
  rewrite Z2Nat.id in H by lia.
  assert (Hin : In (Z.to_nat v) (seq 0 256)) by (apply in_seq; lia).
  apply H in Hin.
  destruct (reply_value (str_int v ++ nl)) as [u|e]; [|discriminate Hin].
  apply Z.eqb_eq in Hin. now subst u.
Qed.

Lemma register_round_trip_witness : reply_value (str_int 129 ++ nl) = Ok 129%Z.
Proof. apply (register_round_trip 129). lia. Defined.

(** ** More on the channel operations *)

Lemma bind_ok {A B} (c : M A) (k : A -> M B) (w w1 : world) (a : A) :
  c w = (Ok a, w1) -> bind c k w = k a w1.
Proof. intros H. unfold bind. now rewrite H. Qed.

Lemma wait_ok (self : GPP4323) (w : world) (polls : list string) (l : string)
    (rest : list string) :
  rx w = (polls ++ l :: rest)%list ->
  completing polls l ->
  exists w1, wait self w = (Ok tt, w1)
             /\ tx w1 = (tx w ++ OPC :: repeat ESR (S (List.length polls)))%list
             /\ rx w1 = rest.
Proof.
  intros Hrx (Hlen & Hq & v & Hv & H1 & H32 & H16 & H8).
  pose proof (wait_after_quiet self w polls l rest v Hrx Hlen Hq Hv) as H.
  unfold quiet in H. rewrite H1, H32, H16, H8 in H.
  specialize (H (andb_false_r _)). destruct H as (Hr & Htx & Hrx1).
  destruct (wait self w) as [r w1]. cbn [fst snd] in *. subst r.
  now exists w1.
Qed.

(** X7: with exactly one of [cv], [cc], [cr] given, [set_load] writes the
    set point and the switch of that mode, waits, asks for the mode, and
    returns normally exactly when the token of the answer is the name of the
    mode; otherwise it raises the 'failed to switch' error that names the
    mode. *)
Theorem set_load_verifies_mode (self : Channel) (cv cc cr : value) (w : world)
    (polls : list string) (l reply : string) (rest : list string) (m : string) :
  supplied cv cc cr = 1 ->
  is_ascii (str cv) = true ->
  is_ascii (str cc) = true ->
  is_ascii (str cr) = true ->
  rx w = (polls ++ l :: reply :: rest)%list ->
  completing polls l ->
  reply_token reply = Ok m ->
  fst (set_load self cv cc cr w)
  = (if String.eqb m (load_name cv cc cr) then Ok tt
     else Raise (RuntimeError ("supply failed to switch to "
                               ++ load_name cv cc cr ++ " mode")))
  /\ written w (snd (set_load self cv cc cr w))
     = (load_commands self cv cc cr
        ++ OPC :: repeat ESR (S (List.length polls))
        ++ [line (":MODE" ++ str_int (n self) ++ "?")])%list
  /\ rx (snd (set_load self cv cc cr w)) = rest.
Proof.
  intros Hs Hcv Hcc Hcr Hrx Hc Hm. unfold reply_token in Hm.
  unfold set_load, load_name, load_commands, supplied in *.
  cbn [filter] in Hs.
  destruct (is_None cv) eqn:Ev, (is_None cc) eqn:Ec, (is_None cr) eqn:Er;
    cbn in Hs; try discriminate Hs; cbn [negb andb orb];
    rewrite bind_assoc, bind_sendline by ascii;
    rewrite bind_assoc, bind_sendline by ascii; rewrite bind_ret;
    match goal with |- context [bind (wait (gpp self)) _ ?W] =>
      destruct (wait_ok (gpp self) W polls l (reply :: rest) Hrx Hc)
        as (w1 & Ew & Htx & Hrx1)
    end;
    rewrite (bind_ok _ _ _ _ _ Ew);
    rewrite bind_sendline by ascii; rewrite bind_expect_group;
    cbn [rx sent]; rewrite Hrx1; cbn [hd]; rewrite Hm;
    match goal with |- context [String.eqb m ?name] =>
      destruct (String.eqb m name)
    end;
    cbn [negb]; unfold raise, ret; cbn [fst snd];
    (split; [reflexivity|]);
    (split; [|cbn [rx received sent]; now rewrite Hrx1]);
    apply written_app; cbn [tx received sent]; rewrite Htx;
    cbn [tx sent]; rewrite <- !app_assoc; reflexivity.
Qed.

Lemma set_load_verifies_mode_witness :
  fst (set_load (mkChannel bench 2) VNone (VFloat "1.5") VNone
         (fresh ["1" ++ nl; "CC" ++ nl])) = Ok tt
  /\ fst (set_load (mkChannel bench 2) VNone VNone (VInt 10)
            (fresh ["1" ++ nl; "CC" ++ nl]))
     = Raise (RuntimeError "supply failed to switch to CR mode").
Proof.
  assert (Hc : completing [] ("1" ++ nl)).
  { split; [cbn; lia|]. split; [constructor|]. exists 1%Z. repeat split. }
  split.
  - apply (proj1 (set_load_verifies_mode (mkChannel bench 2) VNone
                    (VFloat "1.5") VNone (fresh ["1" ++ nl; "CC" ++ nl])
                    [] ("1" ++ nl) ("CC" ++ nl) [] "CC"
                    eq_refl eq_refl eq_refl eq_refl eq_refl Hc eq_refl)).
  - apply (proj1 (set_load_verifies_mode (mkChannel bench 2) VNone
                    VNone (VInt 10) (fresh ["1" ++ nl; "CC" ++ nl])
                    [] ("1" ++ nl) ("CC" ++ nl) [] "CC"
                    eq_refl eq_refl eq_refl eq_refl eq_refl Hc eq_refl)).
Defined.

(** X8: on channels 1 and 2, when [wait] has returned and the token of the
    answer to the mode query is IND, [set_source] returns normally; it has
    written the tracking, load, current and voltage commands, the exchange of
    [wait] and the mode query, in this order. *)
Theorem set_source_accepts_IND (self : Channel) (voltage current : value)
    (w : world) (polls : list string) (l reply : string) (rest : list string) :
  is_ascii (str voltage) = true ->
  is_ascii (str current) = true ->
  n self = 1%Z \/ n self = 2%Z ->
  rx w = (polls ++ l :: reply :: rest)%list ->
  completing polls l ->
  reply_token reply = Ok "IND" ->
  fst (set_source self voltage current w) = Ok tt
  /\ written w (snd (set_source self voltage current w))
     = ([line "TRACK0";
         line (":LOAD" ++ str_int (n self) ++ ":CC OFF");
         line (":SOUR" ++ str_int (n self) ++ ":CURR " ++ str current);
         line (":SOUR" ++ str_int (n self) ++ ":VOLT " ++ str voltage);
         OPC]
        ++ repeat ESR (S (List.length polls))
        ++ [line (":MODE" ++ str_int (n self) ++ "?")])%list
  /\ rx (snd (set_source self voltage current w)) = rest.
Proof.
  intros Hv Hc Hn Hrx Hcomp Hm. unfold reply_token in Hm.
  assert (Hb : ((n self =? 1) || (n self =? 2))%Z = true)
    by (destruct Hn as [-> | ->]; reflexivity).
  unfold set_source. rewrite Hb. cbv zeta. unfold when.
  do 4 rewrite bind_sendline by ascii.
  match goal with |- context [bind (wait (gpp self)) _ ?W] =>
    destruct (wait_ok (gpp self) W polls l (reply :: rest) Hrx Hcomp)
      as (w1 & Ew & Htx & Hrx1)
  end.
  rewrite (bind_ok _ _ _ _ _ Ew).
  rewrite bind_sendline by ascii. rewrite bind_expect_group.
  cbn [rx sent]. rewrite Hrx1. cbn [hd]. rewrite Hm.
  rewrite String.eqb_refl. cbn [negb]. unfold ret. cbn [fst snd].
  split; [reflexivity|]. split; [|cbn [rx received sent]; now rewrite Hrx1].
  apply written_app. cbn [tx received sent]. rewrite Htx.
  cbn [tx sent]. rewrite <- !app_assoc. reflexivity.
Qed.

Lemma set_source_accepts_IND_witness :
  fst (set_source (mkChannel bench 2) (VFloat "12.0") (VInt 3)
         (fresh ["0" ++ nl; "1" ++ nl; "IND" ++ nl])) = Ok tt.
Proof.
  assert (Hc : completing ["0" ++ nl] ("1" ++ nl)).
  { split; [cbn; lia|]. split.
    - repeat constructor. exists 0%Z. split; reflexivity.
    - exists 1%Z. repeat split. }
  apply (proj1 (set_source_accepts_IND (mkChannel bench 2) (VFloat "12.0")
                  (VInt 3) (fresh ["0" ++ nl; "1" ++ nl; "IND" ++ nl])
                  ["0" ++ nl] ("1" ++ nl) ("IND" ++ nl) []
                  eq_refl eq_refl (or_intror eq_refl) eq_refl Hc eq_refl)).
Defined.

(** X9: [is_load] writes the mode query and nothing else, reads one answer
    and does not wait; on an ASCII answer it returns true exactly when the
    first word of the answer is CV, CC or CR, and raises AttributeError when
    the answer has no word. *)
Theorem is_load_reads_first_word (self : Channel) (w : world) :
  is_ascii (hd "" (rx w)) = true ->
  fst (is_load self w)
  = match first_run (fun c => negb (isspace c)) (hd "" (rx w)) with
    | Some m =>
        Ok (String.eqb m "CV" || String.eqb m "CC" || String.eqb m "CR")
    | None => Raise AttributeError
    end
  /\ written w (snd (is_load self w))
     = [line (":MODE" ++ str_int (n self) ++ "?")]
  /\ rx (snd (is_load self w)) = tl (rx w).
Proof.
  intros Ha. unfold is_load.
  rewrite bind_sendline by ascii. rewrite bind_expect_group.
  cbn [rx sent]. unfold decode_utf8. rewrite Ha. cbn [rbind].
  unfold pat_token. rewrite search_one_class.
  destruct (first_run (fun c => negb (isspace c)) (hd "" (rx w))) as [m|];
    cbn [option_map group Nat.sub nth_error fst snd ret];
    (split; [reflexivity|]); (split; [|reflexivity]);
    apply written_app; reflexivity.
Qed.

Lemma is_load_reads_first_word_witness :
  fst (is_load (mkChannel bench 1) (fresh ["CR" ++ nl])) = Ok true.
Proof.
  rewrite (proj1 (is_load_reads_first_word (mkChannel bench 1)
                    (fresh ["CR" ++ nl]) eq_refl)).
  reflexivity.
Defined.

Lemma polling_or_home_prefix (self : Channel) (a : string) :
  forall l, polling_or_home l -> startswith (moni self ++ a) l = false.
Proof. intros l [-> | [-> | ->]]; reflexivity. Qed.

Lemma polling_lines (k : nat) : Forall polling_or_home (OPC :: repeat ESR k).
Proof.
  constructor; [now left|]. apply Forall_forall. intros x Hx.
  apply repeat_spec in Hx. subst x. right. now left.
Qed.

Lemma writes_unarmed (self : GPP4323) (c : M unit) :
  writes polling_or_home
    (wait self ;; when false c ;; wait self ;; _sendline self ":DISP:TYPE 1").
Proof.
  unfold polling_or_home.
  apply writes_bind; [apply writes_wait; auto|]. intros _.
  apply writes_bind; [apply writes_ret|]. intros _.
  apply writes_bind; [apply writes_wait; auto|]. intros _.
  apply writes_sendline. auto.
Qed.

Lemma writes_home (self : GPP4323) :
  writes polling_or_home (wait self ;; _sendline self ":DISP:TYPE 1").
Proof.
  unfold polling_or_home.
  apply writes_bind; [apply writes_wait; auto|]. intros _.
  apply writes_sendline. auto.
Qed.

(** X10: [monitor] never switches the monitoring on when the trigger mask
    is zero or no condition is given, whatever the instrument answers; when
    the mask is not zero, a condition is given and the first [wait] returns,
    it writes the switch exactly once. *)
Theorem monitor_arms_only_when_asked (self : Channel)
    (current voltage power : option (string * value)) (trigger : Z)
    (w : world) :
  encodable current = true ->
  encodable voltage = true ->
  encodable power = true ->
  (armed trigger current voltage power = false ->
   filter (startswith (moni self ++ ":STAT ON"))
          (written w (snd (monitor self current voltage power trigger w)))
   = [])
  /\ (armed trigger current voltage power = true ->
      forall (polls : list string) (l : string) (rest : list string),
        rx w = (polls ++ l :: rest)%list ->
        completing polls l ->
        filter (startswith (moni self ++ ":STAT ON"))
               (written w (snd (monitor self current voltage power trigger w)))
        = [line (moni self ++ ":STAT ON")]).
Proof.
  intros Hc Hv Hp.
  assert (Hm : is_ascii (moni self) = true) by (unfold moni; ascii).
  assert (Ho : forall b, is_ascii (on_off b) = true) by (now intros []).
  split.
  - intros Harm. unfold armed in Harm.
    destruct current as [[c1 c2]|], voltage as [[v1 v2]|], power as [[p1 p2]|];
      cbn [encodable fst snd] in Hc, Hv, Hp; cbn [truthy] in Harm;
      repeat match goal with
             | H : is_ascii _ && _ = true |- _ =>
                 apply andb_true_iff in H; destruct H
             end;
      unfold monitor; cbn [truthy negb when fst snd];
      repeat first [ rewrite bind_assoc | rewrite bind_ret
                   | rewrite bind_sendline
                       by (rewrite ?is_ascii_app, ?Ho, ?Hm; ascii) ];
      rewrite Harm;
      match goal with
      | |- context [bind (wait (gpp self))
                      (fun _ => bind (when false ?c) _) ?W] =>
          destruct (writes_unarmed (gpp self) c W) as (extra & Htx & HP);
          let t := eval cbn [tx sent] in (tx W) in
          change (tx W) with t in Htx
      end;
      rewrite <- !app_assoc in Htx; apply written_app in Htx;
      rewrite Htx; repeat rewrite filter_app;
      rewrite (filter_none _ _ extra HP)
        by (apply polling_or_home_prefix);
      cbn [filter app]; repeat rewrite prefix_moni; reflexivity.
  - intros Harm polls l rest Hrx Hcomp. unfold armed in Harm.
    destruct current as [[c1 c2]|], voltage as [[v1 v2]|], power as [[p1 p2]|];
      cbn [encodable fst snd] in Hc, Hv, Hp; cbn [truthy] in Harm;
      repeat match goal with
             | H : is_ascii _ && _ = true |- _ =>
                 apply andb_true_iff in H; destruct H
             end;
      unfold monitor; cbn [truthy negb when fst snd];
      repeat first [ rewrite bind_assoc | rewrite bind_ret
                   | rewrite bind_sendline
                       by (rewrite ?is_ascii_app, ?Ho, ?Hm; ascii) ];
      rewrite Harm;
      match goal with
      | |- context [bind (wait (gpp self)) _ ?W] =>
          destruct (wait_ok (gpp self) W polls l rest Hrx Hcomp)
            as (w1 & Ew & Htx1 & Hrx1);
          let t := eval cbn [tx sent] in (tx W) in
          change (tx W) with t in Htx1
      end;
      rewrite (bind_ok _ _ _ _ _ Ew); cbn [when];
      rewrite bind_sendline by (rewrite ?is_ascii_app, ?Hm; ascii);
      match goal with
      | |- context [bind (wait (gpp self)) _ ?W] =>
          destruct (writes_home (gpp self) W) as (extra & Htx & HP)
      end;
      cbn [tx sent] in Htx; rewrite Htx1 in Htx;
      rewrite <- !app_assoc in Htx; apply written_app in Htx;
      rewrite Htx; repeat rewrite filter_app;
      rewrite (filter_none _ _ extra HP)
        by (apply polling_or_home_prefix);
      rewrite (filter_none _ _ _ (polling_lines (S (List.length polls))))
        by (apply polling_or_home_prefix);
      cbn [filter app]; repeat rewrite prefix_moni; reflexivity.
Qed.

Lemma monitor_arms_only_when_asked_witness :
  filter (startswith ":MONI1:STAT ON")
         (written (fresh ["1" ++ nl; "1" ++ nl])
            (snd (monitor (mkChannel bench 1)
                    (Some (Monitor.ABOVE (VFloat "2.5"))) Monitor.NONE
                    Monitor.NONE Monitor.TRIG_NONE
                    (fresh ["1" ++ nl; "1" ++ nl]))))
  = []
  /\ filter (startswith ":MONI1:STAT ON")
            (written (fresh ["1" ++ nl; "1" ++ nl])
               (snd (monitor (mkChannel bench 1)
                       (Some (Monitor.ABOVE (VFloat "2.5"))) Monitor.NONE
                       Monitor.NONE Monitor.TRIG_ALARM
                       (fresh ["1" ++ nl; "1" ++ nl]))))
     = [line ":MONI1:STAT ON"].
Proof.
  split.
  - apply (proj1 (monitor_arms_only_when_asked (mkChannel bench 1)
                    (Some (Monitor.ABOVE (VFloat "2.5"))) Monitor.NONE
                    Monitor.NONE Monitor.TRIG_NONE
                    (fresh ["1" ++ nl; "1" ++ nl]) eq_refl eq_refl eq_refl)
             eq_refl).
  - assert (Hc : completing [] ("1" ++ nl)).
    { split; [cbn; lia|]. split; [constructor|]. exists 1%Z. repeat split. }
    apply (proj2 (monitor_arms_only_when_asked (mkChannel bench 1)
                    (Some (Monitor.ABOVE (VFloat "2.5"))) Monitor.NONE
                    Monitor.NONE Monitor.TRIG_ALARM
                    (fresh ["1" ++ nl; "1" ++ nl]) eq_refl eq_refl eq_refl)
             eq_refl [] ("1" ++ nl) ["1" ++ nl] eq_refl Hc).
Defined.

(** ** More on Channel.sequence *)

Lemma tx_sent_all (self : GPP4323) (ls : list string) (w : world) :
  tx (sent_all self ls w) = (tx w ++ map line ls)%list.
Proof.
  revert w. induction ls as [|l ls IH]; intros w; cbn.
  - now rewrite app_nil_r.
  - unfold sent_all in IH. rewrite IH. cbn [tx sent].
    now rewrite <- app_assoc.
Qed.

Lemma bind_sequence_groups {B} (self : Channel) (gs : list (value * value * value))
    (k : unit -> M B) :
  forallb group_encodable gs = true ->
  forall i w,
    bind (sequence_groups self i gs) k w
    = k tt (sent_all (gpp self) (para_commands self i gs) w).
Proof.
  induction gs as [|[[g0 g1] g2] gs IH]; intros Hg i w.
  - reflexivity.
  - cbn [forallb] in Hg. apply andb_true_iff in Hg. destruct Hg as [Hg Hgs].
    unfold group_encodable in Hg. cbn [fst snd] in Hg.
    apply andb_true_iff in Hg. destruct Hg as [Hg H2].
    apply andb_true_iff in Hg. destruct Hg as [H0 H1].
    cbn [sequence_groups para_commands]. rewrite bind_assoc.
    rewrite bind_sendline by ascii. rewrite (IH Hgs). reflexivity.
Qed.

Lemma writes_after_settings (self : Channel) (active : bool) :
  writes (fun l => polling_or_home l
                   \/ (active = true
                       /\ l = line (sequ self ++ ":STAT ON")))
    (wait (gpp self) ;;
     when active
       (_sendline (gpp self) (sequ self ++ ":STAT ON") ;;
        wait (gpp self)) ;;
     _sendline (gpp self) ":DISP:TYPE 1").
Proof.
  unfold polling_or_home.
  apply writes_bind; [apply writes_wait; auto|]. intros _.
  apply writes_bind.
  - destruct active; [|apply writes_ret]. cbn [when].
    apply writes_bind; [apply writes_sendline; auto|]. intros _.
    apply writes_wait; auto.
  - intros _. apply writes_sendline. auto.
Qed.

(** What [sequence] writes: the settings, then the exchanges of [wait], the
    display command and, when asked to, the switch. *)
Lemma sequence_written (self : Channel) (seq : Sequence) (active : bool)
    (w : world) :
  sequence_encodable seq = true ->
  exists extra,
    written w (snd (sequence self seq active w))
    = (map line (sequence_settings self seq) ++ extra)%list
    /\ Forall (fun l => polling_or_home l
                        \/ (active = true
                            /\ l = line (sequ self ++ ":STAT ON")))
              extra.
Proof.
  unfold sequence_encodable. intros H.
  apply andb_true_iff in H. destruct H as [H He].
  apply andb_true_iff in H. destruct H as [H Hc].
  apply andb_true_iff in H. destruct H as [Hg Hs].
  unfold sequence. cbv zeta. fold (sequ self).
  assert (Hq : is_ascii (sequ self) = true) by (unfold sequ; ascii).
  rewrite bind_sendline by ascii. rewrite bind_sendline by ascii.
  rewrite (bind_sequence_groups _ _ _ Hg).
  rewrite bind_sendline by ascii.
  assert (Hcy : forall (k : unit -> M unit) W,
             bind (if eq_True (cycles seq)
                   then _sendline (gpp self) (sequ self ++ ":CYCLE I")
                   else _sendline (gpp self)
                          (sequ self ++ ":CYCLE N," ++ str (cycles seq))) k W
             = k tt (sent (gpp self)
                       (if eq_True (cycles seq)
                        then sequ self ++ ":CYCLE I"
                        else sequ self ++ ":CYCLE N," ++ str (cycles seq))
                       W)).
  { intros k W. destruct (eq_True (cycles seq));
      now rewrite bind_sendline by (unfold sequ; ascii). }
  rewrite Hcy. rewrite bind_sendline by ascii.
  match goal with |- context [bind (wait (gpp self)) _ ?W] =>
    destruct (writes_after_settings self active W) as (extra & Htx & HP);
    exists extra; split; [|exact HP];
    apply written_app; rewrite Htx
  end.
  cbn [tx sent]. rewrite tx_sent_all. cbn [tx sent].
  unfold sequence_settings. rewrite !map_app. cbn [map].
  rewrite <- !app_assoc. reflexivity.
Qed.

(** X11: [sequence] writes, before it waits and whatever the instrument
    answers, the switch-off, the number of groups, one parameter command per
    group in the order of the list and numbered from 0, the start, the cycles
    and the end; after them it writes only the exchanges of [wait], the
    display command and, when [active] holds, the switch-on. *)
Theorem sequence_writes_settings_first (self : Channel) (seq : Sequence)
    (active : bool) (w : world) :
  sequence_encodable seq = true ->
  exists extra,
    written w (snd (sequence self seq active w))
    = (map line (sequence_settings self seq) ++ extra)%list
    /\ Forall (fun l => polling_or_home l
                        \/ (active = true
                            /\ l = line (sequ self ++ ":STAT ON")))
              extra.
Proof. exact (sequence_written self seq active w). Qed.

Lemma sequence_writes_settings_first_witness :
  exists extra,
    written (fresh []) (snd (sequence (mkChannel bench 1) run_once false (fresh [])))
    = (map line (sequence_settings (mkChannel bench 1) run_once) ++ extra)%list
    /\ Forall (fun l => polling_or_home l
                        \/ (false = true /\ l = line ":SEQU1:STAT ON"))
              extra.
Proof.
  apply (sequence_writes_settings_first (mkChannel bench 1) run_once false
           (fresh []) eq_refl).
Defined.

(** X12: the cycles command of [sequence] carries the count for an integer
    other than 1 and the endless marker for [True]; for [False] it carries
    the text False. *)
Theorem sequence_cycles_command (self : Channel) (seq : Sequence)
    (active : bool) (w : world) :
  sequence_encodable seq = true ->
  (forall N, cycles seq = VInt N -> N <> 1%Z ->
             In (line (sequ self ++ ":CYCLE N," ++ str_int N))
                (written w (snd (sequence self seq active w))))
  /\ (cycles seq = VBool true ->
      In (line (sequ self ++ ":CYCLE I"))
         (written w (snd (sequence self seq active w))))
  /\ (cycles seq = VBool false ->
      In (line (sequ self ++ ":CYCLE N,False"))
         (written w (snd (sequence self seq active w)))).
Proof.
  intros H. destruct (sequence_written self seq active w H) as (extra & E & _).
  rewrite E. unfold sequence_settings. rewrite !map_app. cbn [map].
  repeat split.
  - intros N HN Hne. rewrite HN. cbn [eq_True str].
    apply Z.eqb_neq in Hne. rewrite Hne.
    apply in_or_app. left. apply in_or_app. right. apply in_or_app. right.
    right. now left.
  - intros HN. rewrite HN. cbn [eq_True str].
    apply in_or_app. left. apply in_or_app. right. apply in_or_app. right.
    right. now left.
  - intros HN. rewrite HN. cbn [eq_True str].
    apply in_or_app. left. apply in_or_app. right. apply in_or_app. right.
    right. now left.
Qed.

Lemma sequence_cycles_command_witness :
  In (line ":SEQU1:CYCLE N,3")
     (written (fresh [])
        (snd (sequence (mkChannel bench 1)
                (mkSequence [] (VInt 0) (VInt 3) (VInt 0)) true (fresh [])))).
Proof.
  apply (proj1 (sequence_cycles_command (mkChannel bench 1)
                  (mkSequence [] (VInt 0) (VInt 3) (VInt 0)) true (fresh [])
                  eq_refl) 3%Z eq_refl).
  discriminate.
Defined.

(** ** Channel.status *)

Lemma bind_expect_conv {B} (self : GPP4323) (p : pattern)
    (conv : option (list string) -> result field) (k : field -> M B)
    (w : world) :
  (x <- _expect self p ;; v <- lift (conv x) ;; k v) w =
  match rbind (decode_utf8 (hd "" (rx w))) (fun s => conv (search p s)) with
  | Ok v => k v (received self w)
  | Raise e => (Raise e, received self w)
  end.
Proof.
  unfold bind at 1. rewrite expect_eq.
  destruct (decode_utf8 (hd "" (rx w))) as [s|e]; cbn [rbind]; [|reflexivity].
  unfold bind, lift. destruct (conv (search p s)); reflexivity.
Qed.

Lemma item_as_text (p : pattern) (l t : string) :
  reply_item p l = Ok t ->
  rbind (decode_utf8 l) (fun s => as_text (search p s)) = Ok (FText t).
Proof.
  unfold reply_item, as_text. destruct (decode_utf8 l); cbn; [|discriminate].
  now intros ->.
Qed.

Lemma item_as_flag (p : pattern) (l t : string) :
  reply_item p l = Ok t ->
  rbind (decode_utf8 l) (fun s => as_flag (search p s))
  = Ok (FFlag (String.eqb t "ON")).
Proof.
  unfold reply_item, as_flag. destruct (decode_utf8 l); cbn; [|discriminate].
  now intros ->.
Qed.

Lemma item_as_float (p : pattern) (l t : string) (q : Q) :
  reply_item p l = Ok t -> py_float t = Ok q ->
  rbind (decode_utf8 l) (fun s => as_float (search p s)) = Ok (FNumber q).
Proof.
  unfold reply_item, as_float. destruct (decode_utf8 l); cbn; [|discriminate].
  intros -> Hq. cbn. now rewrite Hq.
Qed.

(** X13: on seven readable answers [status] returns the dictionary of the
    seven keys in the order mode, current, voltage, load_cv, load_cc,
    load_cr, enabled; the two set points are the numbers read, and a flag is
    true exactly when the text read is ON; it has written the seven queries
    in that order, without any [wait], and read the seven answers. *)
Theorem status_reads_seven_answers (self : Channel) (w : world)
    (l1 l2 l3 l4 l5 l6 l7 : string) (rest : list string)
    (m ti tv cv cc cr en : string) (i v : Q) :
  rx w = l1 :: l2 :: l3 :: l4 :: l5 :: l6 :: l7 :: rest ->
  reply_item pat_token l1 = Ok m ->
  reply_item pat_number l2 = Ok ti -> py_float ti = Ok i ->
  reply_item pat_number l3 = Ok tv -> py_float tv = Ok v ->
  reply_item pat_token l4 = Ok cv ->
  reply_item pat_token l5 = Ok cc ->
  reply_item pat_token l6 = Ok cr ->
  reply_item pat_token l7 = Ok en ->
  fst (status self w)
  = Ok [("mode", FText m); ("current", FNumber i); ("voltage", FNumber v);
        ("load_cv", FFlag (String.eqb cv "ON"));
        ("load_cc", FFlag (String.eqb cc "ON"));
        ("load_cr", FFlag (String.eqb cr "ON"));
        ("enabled", FFlag (String.eqb en "ON"))]
  /\ written w (snd (status self w)) = status_queries self
  /\ rx (snd (status self w)) = rest.
Proof.
  intros Hrx H1 H2 F2 H3 F3 H4 H5 H6 H7.
  unfold status, vars_of_interest. cbn [status_loop].
  rewrite bind_sendline by ascii. rewrite bind_expect_conv.
  cbn [rx sent]. rewrite Hrx. cbn [hd]. rewrite (item_as_text _ _ _ H1).
  rewrite bind_sendline by ascii. rewrite bind_expect_conv.
  cbn [rx sent received]. rewrite Hrx. cbn [hd tl].
  rewrite (item_as_float _ _ _ _ H2 F2).
  rewrite bind_sendline by ascii. rewrite bind_expect_conv.
  cbn [rx sent received]. rewrite Hrx. cbn [hd tl].
  rewrite (item_as_float _ _ _ _ H3 F3).
  rewrite bind_sendline by ascii. rewrite bind_expect_conv.
  cbn [rx sent received]. rewrite Hrx. cbn [hd tl].
  rewrite (item_as_flag _ _ _ H4).
  rewrite bind_sendline by ascii. rewrite bind_expect_conv.
  cbn [rx sent received]. rewrite Hrx. cbn [hd tl].
  rewrite (item_as_flag _ _ _ H5).
  rewrite bind_sendline by ascii. rewrite bind_expect_conv.
  cbn [rx sent received]. rewrite Hrx. cbn [hd tl].
  rewrite (item_as_flag _ _ _ H6).
  rewrite bind_sendline by ascii. rewrite bind_expect_conv.
  cbn [rx sent received]. rewrite Hrx. cbn [hd tl].
  rewrite (item_as_flag _ _ _ H7).
  unfold ret. cbn [fst snd]. split; [reflexivity|]. split.
  - apply written_app. cbn [tx sent received]. rewrite <- !app_assoc.
    reflexivity.
  - cbn [rx sent received]. rewrite Hrx. reflexivity.
Qed.

Lemma status_reads_seven_answers_witness :
  fst (status (mkChannel bench 1)
         (fresh ["CV" ++ nl; "1.500" ++ nl; "12.00" ++ nl; "ON" ++ nl;
                 "OFF" ++ nl; "on" ++ nl; "ON" ++ nl]))
  = Ok [("mode", FText "CV"); ("current", FNumber 1.500%Q);
        ("voltage", FNumber 12.00%Q); ("load_cv", FFlag true);
        ("load_cc", FFlag false); ("load_cr", FFlag false);
        ("enabled", FFlag true)].
Proof.
  apply (proj1 (status_reads_seven_answers (mkChannel bench 1)
                  (fresh ["CV" ++ nl; "1.500" ++ nl; "12.00" ++ nl; "ON" ++ nl;
                          "OFF" ++ nl; "on" ++ nl; "ON" ++ nl])
                  ("CV" ++ nl) ("1.500" ++ nl) ("12.00" ++ nl) ("ON" ++ nl)
                  ("OFF" ++ nl) ("on" ++ nl) ("ON" ++ nl) []
                  "CV" "1.500" "12.00" "ON" "OFF" "on" "ON" 1.500%Q 12.00%Q
                  eq_refl eq_refl eq_refl eq_refl eq_refl eq_refl eq_refl
                  eq_refl eq_refl eq_refl)).
Defined.

Lemma status_loop_prefix (self : Channel)
    (vars : list (string * string * pattern * string
                  * (option (list string) -> result field))) :
  Forall (fun v => is_ascii (fst (fst (fst (fst v)))) = true
                   /\ is_ascii (snd (fst (fst (fst v)))) = true) vars ->
  forall rv w, exists k,
    k <= List.length vars /\ (vars <> [] -> 0 < k)
    /\ tx (snd (status_loop self vars rv w))
       = (tx w ++ firstn k
            (map (fun v => line (fst (fst (fst (fst v))) ++ str_int (n self)
                                 ++ snd (fst (fst (fst v))))) vars))%list
    /\ rx (snd (status_loop self vars rv w)) = skipn k (rx w).
Proof.
  induction 1 as [|[[[[before after] p] key] conv] vars [Hb Ha] _ IH];
    intros rv w.
  - exists 0. cbn. rewrite app_nil_r. repeat split; [lia | congruence].
  - cbn [fst snd] in Hb, Ha. cbn [status_loop].
    rewrite bind_sendline by ascii. rewrite bind_expect_conv.
    destruct (rbind (decode_utf8 (hd "" (rx (sent (gpp self)
                (before ++ str_int (n self) ++ after) w))))
                (fun s => conv (search p s))) as [v|e].
    + match goal with |- context [status_loop self vars ?rv1 ?w1] =>
        destruct (IH rv1 w1) as (k & Hk & _ & Htx & Hrx) end.
      exists (S k). rewrite Htx, Hrx. cbn [tx rx sent received].
      rewrite skipn_tl, <- app_assoc. cbn [List.length map firstn fst snd].
      repeat split; [lia | lia].
    + exists 1. cbn [snd tx rx sent received List.length map firstn fst snd].
      repeat split; [lia | lia].
Qed.

(** X14: whatever the instrument answers, [status] writes the first one to
    seven of its queries, in order and nothing else, and reads one answer per
    query written: an answer that cannot be read ends it without the later
    queries being sent. *)
Theorem status_writes_a_prefix_of_its_queries (self : Channel) (w : world) :
  exists k,
    1 <= k <= 7
    /\ written w (snd (status self w)) = firstn k (status_queries self)
    /\ rx (snd (status self w)) = skipn k (rx w).
Proof.
  assert (Ha : Forall (fun v =>
                 is_ascii (fst (fst (fst (fst v)))) = true
                 /\ is_ascii (snd (fst (fst (fst v)))) = true)
                 vars_of_interest).
  { repeat constructor. }
  destruct (status_loop_prefix self vars_of_interest Ha [] w)
    as (k & Hk & Hpos & Htx & Hrx).
  exists k. repeat split.
  - apply Hpos. discriminate.
  - exact Hk.
  - apply written_app. exact Htx.
  - exact Hrx.
Qed.

(** ** More on GPP4323.__init__ *)

(** A repetition takes a run that ends where the class ends, when the rest
    of the pattern accepts what follows. *)
Lemma rep_run {R} (cls : ascii -> bool) (k : string -> string -> option R)
    (a b : string) (r : R) :
  all_chars cls a = true ->
  match b with String c _ => cls c = false | "" => True end ->
  forall acc,
    k (acc ++ a)%string b = Some r ->
    rep cls k acc (a ++ b) = Some r.
Proof.
  intros Ha Hb. induction a as [|x a IH]; intros acc Hk.
  - rewrite string_app_nil in Hk. cbn [append].
    destruct b as [|c b']; cbn [rep]; [exact Hk|]. now rewrite Hb.
  - cbn [all_chars] in Ha. apply andb_true_iff in Ha. destruct Ha as [Hx Ha].
    cbn [append rep]. rewrite Hx. rewrite (IH Ha); [reflexivity|].
    now rewrite string_app_assoc.
Qed.

Lemma search_here (p : pattern) (s : string) (m : list string) :
  match_here p s = Some m -> search p s = Some m.
Proof. intros H. destruct s; cbn [search]; now rewrite H. Qed.

(** The identity pattern reads the four fields of an identity line back. *)
Lemma search_idn_line (mfr mdl sn fw : string) :
  all_chars not_comma mfr = true ->
  all_chars not_comma mdl = true ->
  all_chars not_comma sn = true ->
  all_chars not_comma fw = true ->
  search pat_idn (idn_line mfr mdl sn fw) = Some [mfr; mdl; sn; fw].
Proof.
  intros H1 H2 H3 H4. apply search_here. unfold idn_line, pat_idn.
  cbn [match_here]. apply rep_run; [exact H1 | reflexivity |].
  cbn [append admits option_map match_here Ascii.eqb Bool.eqb].
  erewrite rep_run; [reflexivity | exact H2 | reflexivity |].
  cbn [append admits option_map match_here Ascii.eqb Bool.eqb].
  erewrite rep_run; [reflexivity | exact H3 | reflexivity |].
  cbn [append admits option_map match_here Ascii.eqb Bool.eqb].
  rewrite <- (string_app_nil fw) at 1.
  erewrite rep_run; [reflexivity | exact H4 | exact I |].
  reflexivity.
Qed.

(** X15: when the link opens and the instrument answers an identity line
    whose four fields hold no comma, the constructor returns the device with
    the manufacturer, the model and the serial number as sent and the version
    stripped of surrounding white space; it has written the identity query,
    the clearing of the status, the clearing of the errors and the enabling of
    the error queue, in this order, and read the one answer. *)
Theorem init_reads_identity (host : option (string * Z))
    (sport : option (option string * option value)) (dbg : bool) (w : world)
    (mfr mdl sn fw : string) (rest : list string) :
  link_given host sport = true ->
  online w = true ->
  rx w = idn_line mfr mdl sn fw :: rest ->
  is_ascii (idn_line mfr mdl sn fw) = true ->
  all_chars not_comma mfr = true ->
  all_chars not_comma mdl = true ->
  all_chars not_comma sn = true ->
  all_chars not_comma fw = true ->
  fst (GPP4323_init host sport dbg w) = Ok (mkGPP dbg mfr mdl sn (strip fw))
  /\ written w (snd (GPP4323_init host sport dbg w))
     = [line "*IDN?"; line "*CLS"; line ":SYST:CLE";
        line ":STAT:QUE:ENAB (-440:+900)"]
  /\ rx (snd (GPP4323_init host sport dbg w)) = rest.
Proof.
  intros Hl Hon Hrx Ha H1 H2 H3 H4.
  pose proof (search_idn_line mfr mdl sn fw H1 H2 H3 H4) as Hs.
  assert (E : forall c0 w0,
             online w0 = true -> rx w0 = rx w -> tx w0 = tx w ->
             exists wf,
               bind (bind (dprint c0) (fun _ => open_link))
                        (fun _ =>
                           self <- try_except
                             (_sendline (mkGPP dbg "" "" "" "") "*IDN?" ;;
                              rv <- _expect (mkGPP dbg "" "" "" "") pat_idn ;;
                              mfr <- lift (group rv 1) ;;
                              mdl <- lift (group rv 2) ;;
                              sn <- lift (group rv 3) ;;
                              fw <- lift (group rv 4) ;;
                              let self := mkGPP dbg mfr mdl sn (strip fw) in
                              _sendline self "*CLS" ;;
                              _sendline self ":SYST:CLE" ;;
                              _sendline self ":STAT:QUE:ENAB (-440:+900)" ;;
                              ret self)
                             (fun e => raise (GPPException (Repr e))) ;;
                           dprint (Connected (manufacturer self) (model self)
                                     (serial self) (version self)) ;;
                           ret self) w0
               = (Ok (mkGPP dbg mfr mdl sn (strip fw)), wf)
             /\ tx wf
                = (tx w ++ [line "*IDN?"; line "*CLS"; line ":SYST:CLE";
                            line ":STAT:QUE:ENAB (-440:+900)"])%list
             /\ rx wf = rest).
  { intros c0 w0 Hon0 Hrx0 Htx0.
    unfold bind at 1. unfold bind at 1. unfold dprint at 1, open_link.
    cbn [online]. rewrite Hon0.
    unfold bind at 1, try_except.
    rewrite bind_sendline by reflexivity. unfold bind at 1.
    rewrite expect_eq. cbn [rx sent]. rewrite Hrx0, Hrx. cbn [hd].
    unfold decode_utf8. rewrite Ha. cbn [rbind]. rewrite Hs.
    unfold bind at 1, lift at 1. cbn [group Nat.sub nth_error].
    unfold bind at 1, lift at 1. cbn [group Nat.sub nth_error].
    unfold bind at 1, lift at 1. cbn [group Nat.sub nth_error].
    unfold bind at 1, lift at 1. cbn [group Nat.sub nth_error].
    cbv zeta.
    rewrite bind_sendline by reflexivity.
    rewrite bind_sendline by reflexivity.
    rewrite bind_sendline by reflexivity.
    unfold ret at 1. unfold bind, dprint, ret.
    eexists. split; [reflexivity|]. cbn [tx rx sent received].
    rewrite ?Htx0, ?Hrx0, ?Hrx. cbn [tl]. rewrite <- ?app_assoc.
    split; reflexivity. }
  destruct host as [h|]; [|destruct sport as [[[port|] [speed|]]|];
                           try discriminate Hl].
  - destruct (E (Connecting (Some h) None) w Hon eq_refl eq_refl)
      as (wf & Er & Et & Ex).
    change (GPP4323_init (Some h) sport dbg w
            = (Ok (mkGPP dbg mfr mdl sn (strip fw)), wf)) in Er.
    rewrite Er. cbn [fst snd].
    split; [reflexivity|]. split; [|exact Ex]. apply written_app. exact Et.
  - destruct (E (Connecting None (Some (port, speed))) w Hon eq_refl eq_refl)
      as (wf & Er & Et & Ex).
    change (GPP4323_init None (Some (Some port, Some speed)) dbg w
            = (Ok (mkGPP dbg mfr mdl sn (strip fw)), wf)) in Er.
    rewrite Er. cbn [fst snd].
    split; [reflexivity|]. split; [|exact Ex]. apply written_app. exact Et.
Qed.

Lemma init_reads_identity_witness :
  fst (GPP4323_init None (Some (Some "/dev/ttyUSB0", Some (VInt 115200))) true
         (fresh [idn_line "GW" "GPP-4323" "GEX123456" (" V1.17 " ++ nl)]))
  = Ok (mkGPP true "GW" "GPP-4323" "GEX123456" "V1.17").
Proof.
  apply (proj1 (init_reads_identity None
                  (Some (Some "/dev/ttyUSB0", Some (VInt 115200))) true
                  (fresh [idn_line "GW" "GPP-4323" "GEX123456" (" V1.17 " ++ nl)])
                  "GW" "GPP-4323" "GEX123456" (" V1.17 " ++ nl) []
                  eq_refl eq_refl eq_refl eq_refl eq_refl eq_refl eq_refl
                  eq_refl)).
Defined.

Lemma init_with_link (host : option (string * Z))
    (sport : option (option string * option value)) (dbg : bool) :
  link_given host sport = true ->
  exists c0,
    GPP4323_init host sport dbg
    = bind (bind (dprint c0) (fun _ => open_link)) (fun _ => bootstrap dbg).
Proof.
  intros Hl.
  destruct host as [h|]; [|destruct sport as [[[port|] [speed|]]|];
                           try discriminate Hl];
    eexists; reflexivity.
Qed.

Lemma bootstrap_raises (dbg : bool) (w w' : world) (e : exn) :
  bootstrap dbg w = (Raise e, w') -> exists e', e = GPPException (Repr e').
Proof.
  unfold bootstrap. cbv zeta. unfold bind at 1, try_except.
  match goal with |- context [match ?c w with _ => _ end] =>
    destruct (c w) as [[a|e0] w0] end.
  - cbn. discriminate.
  - cbn. intros [= <- _]. now exists e0.
Qed.

Lemma bootstrap_without_identity (dbg : bool) (w : world) (s : string) :
  decode_utf8 (hd "" (rx w)) = Ok s ->
  search pat_idn s = None ->
  bootstrap dbg w
  = (Raise (GPPException (Repr AttributeError)),
     received (mkGPP dbg "" "" "" "") (sent (mkGPP dbg "" "" "" "") "*IDN?" w)).
Proof.
  intros Hd Hs. unfold bootstrap. cbv zeta. unfold bind at 1, try_except.
  rewrite bind_sendline by reflexivity.
  unfold bind at 1. rewrite expect_eq. cbn [rx sent]. rewrite Hd.
  cbn [rbind]. rewrite Hs. reflexivity.
Qed.

(** X16: when a link is asked for, a link that does not open makes the
    constructor raise OSError as it is, with nothing written or read; once
    the link is open every failure of the constructor is its own exception
    carrying the cause, and an answer in which the identity pattern finds
    nothing is such a failure, the cause being the AttributeError of the
    group access, after the identity query alone was written. *)
Theorem init_failures (host : option (string * Z))
    (sport : option (option string * option value)) (dbg : bool) (w : world) :
  link_given host sport = true ->
  (online w = false ->
   fst (GPP4323_init host sport dbg w) = Raise OSError
   /\ tx (snd (GPP4323_init host sport dbg w)) = tx w
   /\ rx (snd (GPP4323_init host sport dbg w)) = rx w)
  /\ (online w = true ->
      (forall e, fst (GPP4323_init host sport dbg w) = Raise e ->
                 exists e', e = GPPException (Repr e'))
      /\ (forall s, decode_utf8 (hd "" (rx w)) = Ok s ->
                    search pat_idn s = None ->
                    fst (GPP4323_init host sport dbg w)
                    = Raise (GPPException (Repr AttributeError))
                    /\ written w (snd (GPP4323_init host sport dbg w))
                       = [line "*IDN?"]
                    /\ rx (snd (GPP4323_init host sport dbg w)) = tl (rx w))).
Proof.
  intros Hl. destruct (init_with_link host sport dbg Hl) as [c0 ->].
  split.
  - intros Hoff. unfold bind, dprint, open_link. cbn [online]. rewrite Hoff.
    cbn. repeat split.
  - intros Hon.
    assert (E0 : forall k : unit -> M GPP4323,
               bind (bind (dprint c0) (fun _ => open_link)) k w
               = k tt (mkWorld (online w) (rx w) (tx w) (console w ++ [c0])
                         (data w))).
    { intros k. unfold bind, dprint, open_link. cbn [online].
      now rewrite Hon. }
    rewrite E0. split.
    + intros e.
      match goal with |- context [bootstrap dbg ?w0] =>
        destruct (bootstrap dbg w0) as [[a|e0] w1] eqn:E end; cbn [fst].
      * discriminate.
      * intros [= <-]. exact (bootstrap_raises _ _ _ _ E).
    + intros s Hd Hs.
      rewrite (bootstrap_without_identity dbg
                 (mkWorld (online w) (rx w) (tx w) (console w ++ [c0]) (data w))
                 s Hd Hs).
      cbn [fst snd tx rx sent received].
      split; [reflexivity|]. split; [|reflexivity].
      apply written_app. reflexivity.
Qed.

Lemma init_failures_witness :
  fst (GPP4323_init (Some ("192.168.1.72", 1026%Z)) None false
         (fresh ["ready" ++ nl]))
  = Raise (GPPException (Repr AttributeError)).
Proof.
  apply (proj1 (proj2 (proj2 (init_failures (Some ("192.168.1.72", 1026%Z))
                                None false (fresh ["ready" ++ nl]) eq_refl)
                         eq_refl)
                  ("ready" ++ nl) eq_refl eq_refl)).
Defined.

(** ** More on Measurement.update *)

Lemma readings_lift (chs : list (list string)) :
  forall chn w, readings chn chs w = (readings_of chn chs, w).
Proof.
  induction chs as [|ch chs IH]; intros chn w; [reflexivity|].
  cbn [readings readings_of]. unfold bind, lift.
  destruct (index ch 0) as [f0|]; [|reflexivity]. cbn [rbind].
  destruct (py_float f0) as [v|]; [|reflexivity]. cbn [rbind].
  destruct (index ch 1) as [f1|]; [|reflexivity]. cbn [rbind].
  destruct (py_float f1) as [i|]; [|reflexivity]. cbn [rbind].
  destruct (index ch 2) as [f2|]; [|reflexivity]. cbn [rbind].
  destruct (py_float f2) as [p|]; [|reflexivity]. cbn [rbind].
  rewrite IH. destruct (readings_of (chn + 1) chs); reflexivity.
Qed.

Lemma readings_of_keys (chs : list (list string)) :
  forall chn d,
    readings_of chn chs = Ok d ->
    map fst d = map (fun i => (chn + Z.of_nat i)%Z) (seq 1 (List.length chs))
    /\ Forall (fun kv => channel_no (snd kv) = fst kv /\ mode (snd kv) = None) d.
Proof.
  induction chs as [|ch chs IH]; intros chn d H.
  - injection H as <-. split; [reflexivity | constructor].
  - cbn [readings_of] in H.
    destruct (index ch 0) as [f0|]; [|discriminate H]. cbn [rbind] in H.
    destruct (py_float f0) as [v|]; [|discriminate H]. cbn [rbind] in H.
    destruct (index ch 1) as [f1|]; [|discriminate H]. cbn [rbind] in H.
    destruct (py_float f1) as [i|]; [|discriminate H]. cbn [rbind] in H.
    destruct (index ch 2) as [f2|]; [|discriminate H]. cbn [rbind] in H.
    destruct (py_float f2) as [p|]; [|discriminate H]. cbn [rbind] in H.
    destruct (readings_of (chn + 1) chs) as [rest|] eqn:E; [|discriminate H].
    cbn [rbind] in H. injection H as <-.
    destruct (IH _ _ E) as [Hk Hf]. split.
    + cbn [map fst List.length seq]. f_equal; try lia.
      rewrite Hk, <- (seq_shift (List.length chs) 1), map_map.
      apply map_ext. intros a. lia.
    + constructor; [now split | exact Hf].
Qed.

(** X17: the snapshot [update] builds from the answer to the measurement
    query is keyed 1, 2, 3 and so on in the order of the answer, each entry
    carries its key as channel number, and no entry has a mode yet. *)
Theorem update_numbers_channels_from_one (l : string) (d : list (Z * reading)) :
  reply_readings l = Ok d ->
  map fst d = map Z.of_nat (seq 1 (List.length d))
  /\ Forall (fun kv => channel_no (snd kv) = fst kv /\ mode (snd kv) = None) d.
Proof.
  unfold reply_readings. intros H.
  destruct (decode_utf8 l) as [s|]; [|discriminate H]. cbn [rbind] in H.
  destruct (group (search pat_meas s) 1) as [g|]; [|discriminate H].
  cbn [rbind] in H. apply readings_of_keys in H. destruct H as [Hk Hf].
  split; [|exact Hf].
  assert (Hl : List.length d = List.length (map (split ",") (split ";" g))).
  { rewrite <- (length_map fst d), Hk, length_map, length_seq. reflexivity. }
  rewrite Hk, Hl. apply map_ext. intros a. lia.
Qed.

Lemma update_numbers_channels_from_one_witness :
  map fst [(1%Z, mkReading 1.5%Q 0.2%Q 0.3%Q 1 None);
           (2%Z, mkReading 5%Q 1%Q 5%Q 2 None);
           (3%Z, mkReading 0%Q 0%Q 0%Q 3 None)]
  = map Z.of_nat (seq 1 3).
Proof.
  apply (proj1 (update_numbers_channels_from_one
                  ("1.5,0.2,0.3;5,1,5;0,0,0" ++ nl) _ eq_refl)).
Defined.

Lemma put_mode_other (chn : Z) (m : string) (d : list (Z * reading)) :
  ~ In chn (map fst d) -> put_mode chn m d = d.
Proof.
  induction d as [|kv d IH]; intros Hn; [reflexivity|].
  cbn [put_mode map] in *.
  destruct (Z.eqb_spec (fst kv) chn) as [E|E].
  - exfalso. apply Hn. now left.
  - f_equal. apply IH. intros Hi. apply Hn. now right.
Qed.

Lemma put_mode_here (m : string) (done todo : list (Z * reading))
    (kv : Z * reading) :
  NoDup (map fst (done ++ kv :: todo)) ->
  put_mode (fst kv) m (done ++ kv :: todo)
  = (done ++ (fst kv, with_mode m (snd kv)) :: todo)%list.
Proof.
  intros Hn. rewrite map_app in Hn. cbn [map] in Hn.
  pose proof (NoDup_remove_2 _ _ _ Hn) as Hout.
  unfold put_mode at 1. rewrite map_app. cbn [map].
  rewrite Z.eqb_refl. fold (put_mode (fst kv) m done).
  fold (put_mode (fst kv) m todo).
  rewrite !put_mode_other; [reflexivity| |];
    intros Hi; apply Hout; apply in_or_app; [now right | now left].
Qed.

(** The loop over the keys, as far as the answers can be read. *)
Lemma update_modes_run (self : GPP4323) :
  forall (lines ms : list string),
    Forall2 (fun l m => reply_item pat_token l = Ok m) lines ms ->
    forall (todo done : list (Z * reading)) (rest : list string) (w : world),
      (List.length ms <= List.length todo)%nat ->
      NoDup (map fst (done ++ todo)) ->
      data w = Some (done ++ todo)%list ->
      rx w = (lines ++ rest)%list ->
      exists w1,
        update_modes self (map fst todo) w
        = update_modes self (skipn (List.length ms) (map fst todo)) w1
        /\ data w1 = Some (done ++ with_modes todo ms)%list
        /\ tx w1 = (tx w ++ map mode_query
                     (firstn (List.length ms) (map fst todo)))%list
        /\ rx w1 = rest.
Proof.
  induction 1 as [|l m lines ms Hl _ IH]; intros todo done rest w Hlen Hn Hd Hrx.
  - exists w. cbn. rewrite app_nil_r.
    destruct todo; repeat split; assumption.
  - destruct todo as [|kv todo]; [cbn in Hlen; lia|].
    cbn [List.length] in Hlen.
    cbn [map update_modes List.length skipn firstn with_modes].
    rewrite bind_sendline by ascii. unfold bind at 1. rewrite expect_eq.
    cbn [rx sent]. rewrite Hrx. cbn [hd app].
    unfold reply_item in Hl.
    destruct (decode_utf8 l) as [s|]; [|discriminate Hl]. cbn [rbind] in Hl |- *.
    unfold bind at 1, lift at 1. rewrite Hl.
    unfold bind at 1, set_mode at 1.
    cbn [online rx tx console data received sent].
    rewrite Hd, Hrx. cbn [option_map tl app].
    rewrite put_mode_here by exact Hn.
    match goal with |- context [update_modes self (map fst todo) ?w2] =>
      destruct (IH todo (done ++ [(fst kv, with_mode m (snd kv))])%list rest w2)
        as (w1 & Hrun & Hd1 & Htx1 & Hrx1)
    end.
    + lia.
    + rewrite <- app_assoc. cbn [app]. rewrite map_app in Hn |- *. exact Hn.
    + cbn [data]. now rewrite <- app_assoc.
    + reflexivity.
    + exists w1. split; [exact Hrun|]. split.
      * rewrite Hd1, <- app_assoc. reflexivity.
      * split; [|exact Hrx1]. rewrite Htx1. cbn [tx]. rewrite <- app_assoc.
        reflexivity.
Qed.

Lemma keys_NoDup (c : Z) (k : nat) :
  forall a, NoDup (map (fun i => (c + Z.of_nat i)%Z) (seq a k)).
Proof.
  induction k as [|k IH]; intros a; cbn [seq map]; constructor.
  - intros Hin. apply in_map_iff in Hin. destruct Hin as (i & Hi & Hs).
    apply in_seq in Hs. lia.
  - apply IH.
Qed.

(** The first part of [update], up to the assignment of [self.data]. *)
Lemma update_eq (self : GPP4323) (w : world) :
  update self w =
  match reply_readings (hd "" (rx w)) with
  | Ok d =>
      update_modes self (map fst d)
        (mkWorld (online w) (tl (rx w)) (tx w ++ [line ":MEAS?"])
           (console (received self (sent self ":MEAS?" w))) (Some d))
  | Raise e => (Raise e, received self (sent self ":MEAS?" w))
  end.
Proof.
  unfold update. rewrite bind_sendline by reflexivity.
  rewrite bind_expect_group. cbn [rx sent]. unfold reply_readings.
  destruct (decode_utf8 (hd "" (rx w))) as [s|]; cbn [rbind]; [|reflexivity].
  destruct (group (search pat_meas s) 1) as [g|]; cbn [rbind]; [|reflexivity].
  unfold bind at 1. rewrite readings_lift.
  destruct (readings_of 0 (map (split ",") (split ";" g))) as [d|];
    reflexivity.
Qed.

(** X18: when the answer to the measurement query gives the readings [d]
    and each of the answers that follow carries a mode token, one per entry,
    [update] returns normally with the snapshot [d] in which each entry has
    the mode of its answer, in order; it has written the measurement query and
    one mode query per entry, keyed as the entries are, and read all these
    answers. *)
Theorem update_attaches_modes (self : GPP4323) (w : world) (l : string)
    (lines ms rest : list string) (d : list (Z * reading)) :
  rx w = (l :: lines ++ rest)%list ->
  reply_readings l = Ok d ->
  Forall2 (fun l m => reply_item pat_token l = Ok m) lines ms ->
  List.length ms = List.length d ->
  fst (update self w) = Ok tt
  /\ data (snd (update self w)) = Some (with_modes d ms)
  /\ written w (snd (update self w))
     = line ":MEAS?" :: map mode_query (map fst d)
  /\ rx (snd (update self w)) = rest.
Proof.
  intros Hrx Hr Hl Hlen. rewrite update_eq, Hrx. cbn [hd tl]. rewrite Hr.
  assert (Hn : NoDup (map fst ([] ++ d))).
  { cbn [app]. unfold reply_readings in Hr.
    destruct (decode_utf8 l) as [s|]; [|discriminate Hr]. cbn [rbind] in Hr.
    destruct (group (search pat_meas s) 1) as [g|]; [|discriminate Hr].
    cbn [rbind] in Hr. apply readings_of_keys in Hr. destruct Hr as [Hk _].
    rewrite Hk. apply keys_NoDup. }
  match goal with |- context [update_modes self (map fst d) ?w0] =>
    destruct (update_modes_run self lines ms Hl d [] rest w0
                ltac:(lia) Hn eq_refl eq_refl)
      as (w1 & Hrun & Hd1 & Htx1 & Hrx1)
  end.
  rewrite Hrun, Hlen, <- (length_map fst d), skipn_all.
  rewrite Hlen, <- (length_map fst d), firstn_all in Htx1.
  cbn [update_modes ret fst snd]. unfold ret. cbn [fst snd].
  split; [reflexivity|]. split; [exact Hd1|]. split; [|exact Hrx1].
  apply written_app. rewrite Htx1. cbn [tx]. rewrite <- app_assoc.
  reflexivity.
Qed.

Lemma update_attaches_modes_witness :
  data (snd (update bench
               (fresh ["3.3,0.1,0.33" ++ nl; "CC" ++ nl; "stale" ++ nl])))
  = Some [(1%Z, mkReading 3.3%Q 0.1%Q 0.33%Q 1 (Some "CC"))].
Proof.
  assert (Hm : Forall2 (fun l m => reply_item pat_token l = Ok m)
                 ["CC" ++ nl] ["CC"])
    by (repeat constructor).
  apply (proj1 (proj2 (update_attaches_modes bench
           (fresh ["3.3,0.1,0.33" ++ nl; "CC" ++ nl; "stale" ++ nl])
           ("3.3,0.1,0.33" ++ nl) ["CC" ++ nl] ["CC"] ["stale" ++ nl]
           [(1%Z, mkReading 3.3%Q 0.1%Q 0.33%Q 1 None)]
           eq_refl eq_refl Hm eq_refl))).
Defined.

(** X19: when the answer to the measurement query cannot be turned into
    readings (no match, a channel with fewer than three fields, a field that
    is no number), [update] raises the error of that step, has written the
    measurement query only, and leaves the snapshot it had untouched. *)
Theorem update_keeps_snapshot_on_bad_answer (self : GPP4323) (w : world)
    (e : exn) :
  reply_readings (hd "" (rx w)) = Raise e ->
  fst (update self w) = Raise e
  /\ data (snd (update self w)) = data w
  /\ written w (snd (update self w)) = [line ":MEAS?"]
  /\ rx (snd (update self w)) = tl (rx w).
Proof.
  intros H. rewrite update_eq, H. cbn [fst snd data rx received sent].
  split; [reflexivity|]. split; [reflexivity|]. split; [|reflexivity].
  apply written_app. reflexivity.
Qed.

Lemma update_keeps_snapshot_on_bad_answer_witness :
  fst (update bench (fresh ["1.0,2.0;3.0,4.0,5.0" ++ nl])) = Raise IndexError
  /\ fst (update bench (fresh ["1.0,2.0,3.0;" ++ nl]))
     = Raise (ValueError "could not convert string to float").
Proof.
  split.
  - apply (proj1 (update_keeps_snapshot_on_bad_answer bench
                    (fresh ["1.0,2.0;3.0,4.0,5.0" ++ nl]) IndexError eq_refl)).
  - apply (proj1 (update_keeps_snapshot_on_bad_answer bench
                    (fresh ["1.0,2.0,3.0;" ++ nl])
                    (ValueError "could not convert string to float") eq_refl)).
Defined.

Lemma update_modes_unreadable (self : GPP4323) (k : Z) (ks : list Z)
    (w : world) (e : exn) :
  reply_item pat_token (hd "" (rx w)) = Raise e ->
  update_modes self (k :: ks) w
  = (Raise e, received self (sent self (":MODE" ++ str_int k ++ "?") w)).
Proof.
  intros He. cbn [update_modes]. rewrite bind_sendline by ascii.
  unfold bind at 1. rewrite expect_eq. cbn [rx sent].
  unfold reply_item in He.
  destruct (decode_utf8 (hd "" (rx w))) as [s|]; cbn [rbind] in He |- *.
  - unfold bind at 1, lift at 1. now rewrite He.
  - now injection He as <-.
Qed.

(** X20: when the readings were taken and a mode answer cannot be read, the
    channels before it having answered, [update] raises the error of that
    answer and leaves a partial snapshot in place of the old one: the new
    readings, with a mode on the channels that answered and none on the
    others. *)
Theorem update_leaves_partial_snapshot (self : GPP4323) (w : world)
    (l : string) (lines ms rest : list string) (d : list (Z * reading))
    (e : exn) :
  rx w = (l :: lines ++ rest)%list ->
  reply_readings l = Ok d ->
  Forall2 (fun l m => reply_item pat_token l = Ok m) lines ms ->
  (List.length ms < List.length d)%nat ->
  reply_item pat_token (hd "" rest) = Raise e ->
  fst (update self w) = Raise e
  /\ data (snd (update self w)) = Some (with_modes d ms)
  /\ written w (snd (update self w))
     = line ":MEAS?"
       :: map mode_query (firstn (S (List.length ms)) (map fst d))
  /\ rx (snd (update self w)) = tl rest.
Proof.
  intros Hrx Hr Hl Hlen He. rewrite update_eq, Hrx. cbn [hd tl]. rewrite Hr.
  assert (Hn : NoDup (map fst ([] ++ d))).
  { cbn [app]. unfold reply_readings in Hr.
    destruct (decode_utf8 l) as [s|]; [|discriminate Hr]. cbn [rbind] in Hr.
    destruct (group (search pat_meas s) 1) as [g|]; [|discriminate Hr].
    cbn [rbind] in Hr. apply readings_of_keys in Hr. destruct Hr as [Hk _].
    rewrite Hk. apply keys_NoDup. }
  match goal with |- context [update_modes self (map fst d) ?w0] =>
    destruct (update_modes_run self lines ms Hl d [] rest w0
                ltac:(lia) Hn eq_refl eq_refl)
      as (w1 & Hrun & Hd1 & Htx1 & Hrx1)
  end.
  rewrite Hrun.
  assert (Hk : exists k ks, skipn (List.length ms) (map fst d) = k :: ks
                            /\ firstn (S (List.length ms)) (map fst d)
                               = (firstn (List.length ms) (map fst d) ++ [k])%list).
  { clear - Hlen. rewrite <- (length_map fst d) in Hlen.
    revert Hlen. generalize (map fst d) as ks. generalize (List.length ms) as j.
    induction j as [|j IH]; intros ks Hlen.
    - destruct ks as [|k ks]; [cbn in Hlen; lia|]. now exists k, ks.
    - destruct ks as [|k0 ks]; [cbn in Hlen; lia|]. cbn [List.length] in Hlen.
      destruct (IH ks ltac:(lia)) as (k & ks' & E1 & E2).
      exists k, ks'. cbn [skipn]. split; [exact E1|].
      change (firstn (S (S j)) (k0 :: ks)) with (k0 :: firstn (S j) ks).
      rewrite E2. reflexivity. }
  destruct Hk as (k & ks & Hs & Hf). rewrite Hs, Hf.
  rewrite (update_modes_unreadable self k ks w1 e); [|now rewrite Hrx1].
  cbn [fst snd data rx tx received sent].
  split; [reflexivity|]. split; [exact Hd1|]. split; [|now rewrite Hrx1].
  apply written_app. cbn [tx received sent]. rewrite Htx1. cbn [tx].
  rewrite map_app. rewrite <- !app_assoc. reflexivity.
Qed.

Lemma update_leaves_partial_snapshot_witness :
  data (snd (update bench
               (fresh ["3.3,0.1,0.33;5,1,5" ++ nl; "CC" ++ nl])))
  = Some [(1%Z, mkReading 3.3%Q 0.1%Q 0.33%Q 1 (Some "CC"));
          (2%Z, mkReading 5%Q 1%Q 5%Q 2 None)].
Proof.
  assert (Hm : Forall2 (fun l m => reply_item pat_token l = Ok m)
                 ["CC" ++ nl] ["CC"])
    by (repeat constructor).
  assert (Hlen : (List.length ["CC"] < 2)%nat) by (cbn; lia).
  apply (proj1 (proj2 (update_leaves_partial_snapshot bench
           (fresh ["3.3,0.1,0.33;5,1,5" ++ nl; "CC" ++ nl])
           ("3.3,0.1,0.33;5,1,5" ++ nl) ["CC" ++ nl] ["CC"] []
           [(1%Z, mkReading 3.3%Q 0.1%Q 0.33%Q 1 None);
            (2%Z, mkReading 5%Q 1%Q 5%Q 2 None)] TypeError
           eq_refl eq_refl Hm Hlen eq_refl))).
Defined.
